(** * Connect-Stethoscope: servo sweep, selection flags, debounce, mode cycle

    A shallow embedding of the two MicroPython programs of the repository,

      - [steth-single.py]       (the richer variant, module [Rich]),
      - [stethoscope-simple.py] (the simplified variant, module [Simple]),

    and the properties of their servo controllers, button dispatcher and
    application mode machine.

    Conventions of the embedding.

      - Python [int] is [Z].  A Python number that may be a [float]
        ([angle], and everything computed with [/]) is an exact rational
        [Q]; rounding of the hardware floats is not modelled, and equality
        of such numbers is [==].
      - [utime.ticks_ms()] reads a clock that the program does not
        control: a computation that reads it is a function of the stream
        of readings still to come ([IO]).
      - [utime.ticks_diff] belongs to the MicroPython runtime, not to the
        repository: it is a parameter of every definition that calls it.
      - Servo objects live in a store and are named by their index, so
        that the tuples and dictionaries which mention a servo share it. *)

From Stdlib Require Import ZArith QArith Qround Lia Lqa List Bool Ascii String.
From stdpp Require Import base option list strings.

Local Open Scope Z_scope.

(** ** Python numbers *)

Module Py.

(** [int(q)]: truncation towards zero. *)
Definition int (q : Q) : Z := Z.quot (Qnum q) (Z.pos (Qden q)).

(** [a / b]: true division; [None] stands for [ZeroDivisionError]. *)
Definition truediv (a b : Q) : option Q :=
  if Qeq_dec b 0 then None else Some (a / b)%Q.

(** An [int] used where a float is expected. *)
Definition of_int (z : Z) : Q := inject_Z z.

End Py.

(** ** The clock *)

(** The readings [utime.ticks_ms()] will return, in the order of the calls. *)
Definition Clock : Type := nat -> Z.

Definition IO (A : Type) : Type := Clock -> A * Clock.

#[global] Instance IO_ret : MRet IO := fun A (a : A) c => (a, c).

#[global] Instance IO_bind : MBind IO := fun A B (f : A -> IO B) (m : IO A) c =>
  let (a, c') := m c in f a c'.

(** [utime.ticks_ms()] *)
Definition ticks_ms : IO Z := fun c => (c 0%nat, fun n => c (S n)).

(** A clock that returns the readings of [l] and then stays at [d]. *)
Definition clock_of (l : list Z) (d : Z) : Clock := fun n => nth n l d.

(** ** [rescale], the same text in both programs *)

Definition rescale (x in_min in_max out_min out_max : Q) : option Q :=
  if Qeq_dec (in_max - in_min) 0 then
    (* print("RESCALE: Caught a divide by zero.") *)
    Some out_min
  else
    q ← Py.truediv ((x - in_min) * (out_max - out_min)) (in_max - in_min);
    Some (Py.of_int (Py.int (q + out_min))).

(** Comparisons of numbers that may be floats, in the order the source
    writes them: [a < b] and [a > b]. *)
Definition Qlt_dec (a b : Q) : {(a < b)%Q} + {(b <= a)%Q} := Qlt_le_dec a b.
Definition Qgt_dec (a b : Q) : {(b < a)%Q} + {(a <= b)%Q} := Qlt_le_dec b a.

(** ** Globals of both programs *)

Definition up_arrow : list Z := [0; 4; 14; 21; 4; 4; 0; 0].
Definition down_arrow : list Z := [0; 4; 4; 21; 14; 4; 0; 0].
Definition bits : list Z := [128; 64; 32; 16; 8; 4; 2; 1].  (* Powers of 2 *)

(** ** [draw_char], the same text in both programs

    The calls of [display.pixel] are the output of [draw_char]: the list
    of the pixels set, in order.  [pattern[line]] raises [IndexError] when
    the pattern has no such row; the pixels set before that stay set, so
    the result is the pixels together with whether the loops ran to their
    end. *)

(** The four calls of [display.pixel] for one dot. *)
Definition draw_char_dot (xpos ypos : Z) (line i : nat) : list (Z * Z) :=
  [ (xpos + Z.of_nat i * 2, ypos + Z.of_nat line * 2);
    (xpos + Z.of_nat i * 2, ypos + Z.of_nat line * 2 + 1);
    (xpos + Z.of_nat i * 2 + 1, ypos + Z.of_nat line * 2);
    (xpos + Z.of_nat i * 2 + 1, ypos + Z.of_nat line * 2 + 1) ].

(** The two loops, over the pairs [(line, ii)] still to visit. *)
Fixpoint draw_char_loop (xpos ypos : Z) (pattern : list Z)
    (steps : list (nat * nat)) : list (Z * Z) * bool :=
  match steps with
  | [] => ([], true)
  | (line, ii) :: rest =>
      let i := (ii + 3)%nat in
      match pattern !! line, bits !! i with
      | Some row, Some bit =>
          let dot := Z.land row bit in  (* Extract bit *)
          let r := draw_char_loop xpos ypos pattern rest in
          if decide (dot = 0) then r
          else (draw_char_dot xpos ypos line i ++ r.1, r.2)
      | _, _ => ([], false)
      end
  end.

(** [for line in range(8): for ii in range(5): ...] *)
Definition draw_char_steps : list (nat * nat) :=
  line ← seq 0 8; ii ← seq 0 5; [(line, ii)].

Definition draw_char (xpos ypos : Z) (pattern : list Z) : list (Z * Z) * bool :=
  draw_char_loop xpos ypos pattern draw_char_steps.

(** The four buttons of the display, [display.BUTTON_A] and so on. *)
Inductive Button : Set := BUTTON_A | BUTTON_B | BUTTON_X | BUTTON_Y.

#[global] Instance Button_eq_dec : EqDecision Button.
Proof. solve_decision. Defined.

(** The [Servo] driver object: the pin it was made for and the value last
    written with [value(v)], if any. *)
Record Servo : Set := { servo_pin : Z; servo_value : option Z }.

(** ** [ButtonController], the same text in both programs

    [_mapping] is a dictionary from a button to the bound call (the
    [{"object": ..., "method": ...}] entry, of type [Target] here); it is
    kept as the list of its items in insertion order, the order in which
    [for button in self._mapping] visits them.  [check] returns the calls
    it dispatched, in order. *)

Module ButtonController.
Section WithRuntime.
Variable ticks_diff : Z -> Z -> Z.
Context {Target : Type}.

Record t : Type := {
  _mapping : list (Button * Target);
  debounce_interval : Z;
  _time_last_checked : Z
}.

Definition __init__ (mapping : list (Button * Target))
    (debounce_interval : Z) : IO t :=
  now ← ticks_ms;
  mret {| _mapping := mapping; debounce_interval := debounce_interval;
          _time_last_checked := now |}.

(** The body of the [for] loop of [check], over the items still to visit;
    [last] is [self._time_last_checked]. *)
Fixpoint check_loop (is_pressed : Button -> bool) (interval : Z)
    (items : list (Button * Target)) (last : Z) : IO (Z * list Target) :=
  match items with
  | [] => mret (last, [])
  | (button, target) :: rest =>
      if is_pressed button then
        now ← ticks_ms;
        if decide (ticks_diff now last > interval) then
          now' ← ticks_ms;
          r ← check_loop is_pressed interval rest now';
          mret (r.1, target :: r.2)
        else check_loop is_pressed interval rest last
      else check_loop is_pressed interval rest last
  end.

Definition check (is_pressed : Button -> bool) (self : t) : IO (t * list Target) :=
  r ← check_loop is_pressed (debounce_interval self) (_mapping self)
        (_time_last_checked self);
  mret ({| _mapping := _mapping self;
           debounce_interval := debounce_interval self;
           _time_last_checked := r.1 |}, r.2).

End WithRuntime.
Arguments t : clear implicits.
End ButtonController.

(** ** [RotaryController], the same text in both programs

    [_mapping] is a dictionary from an object to the names of the methods
    to call on it, kept as the list of its items in insertion order.  The
    encoder driver [self._r] belongs to the board: the value its
    [value()] returns when [check] reads it is an argument of [check].
    [check] returns the calls it dispatched, each an object and the name
    of a method, in order. *)

Module RotaryController.

Record Methods : Set := { inc_method : string; dec_method : string }.

Section WithRuntime.
Variable ticks_diff : Z -> Z -> Z.
Context {Object : Type}.

Record t : Type := {
  _mapping : list (Object * Methods);
  _debounce_interval : Z;
  _time_last_checked : Z;
  _old_value : Z;
  _new_value : Z
}.

(** [r_value] and [r_value'] are what the two calls of [self._r.value()]
    return. *)
Definition __init__ (mapping : list (Object * Methods))
    (debounce_interval : Z) (r_value r_value' : Z) : IO t :=
  now ← ticks_ms;
  mret {| _mapping := mapping; _debounce_interval := debounce_interval;
          _time_last_checked := now;
          _old_value := r_value; _new_value := r_value' |}.

Definition set__time_last_checked (v : Z) (self : t) : t :=
  {| _mapping := _mapping self; _debounce_interval := _debounce_interval self;
     _time_last_checked := v;
     _old_value := _old_value self; _new_value := _new_value self |}.

Definition set__old_value (v : Z) (self : t) : t :=
  {| _mapping := _mapping self; _debounce_interval := _debounce_interval self;
     _time_last_checked := _time_last_checked self;
     _old_value := v; _new_value := _new_value self |}.

Definition set__new_value (v : Z) (self : t) : t :=
  {| _mapping := _mapping self; _debounce_interval := _debounce_interval self;
     _time_last_checked := _time_last_checked self;
     _old_value := _old_value self; _new_value := v |}.

Definition check (r_value : Z) (self : t) : IO (t * list (Object * string)) :=
  now ← ticks_ms;
  if decide (ticks_diff now (_time_last_checked self) > _debounce_interval self)
  then
    now' ← ticks_ms;
    let self := set__time_last_checked now' self in
    let self := set__new_value r_value self in
    let r1 :=
      if decide (_new_value self > _old_value self) then
        (set__old_value (_new_value self) self,
         map (fun item : Object * Methods => (item.1, inc_method item.2))
             (_mapping self))
      else (self, []) in
    let self := r1.1 in
    let r2 :=
      if decide (_new_value self < _old_value self) then
        (set__old_value (_new_value self) self,
         map (fun item : Object * Methods => (item.1, dec_method item.2))
             (_mapping self))
      else (self, []) in
    mret (r2.1, r1.2 ++ r2.2)
  else mret (self, []).

End WithRuntime.
Arguments t : clear implicits.
End RotaryController.

(** * steth-single.py, the richer variant *)

Module Rich.

(** [display_mode], the global, is the argument and the result. *)
Definition increment_application_mode (display_mode : Z) : Z :=
  let display_mode := display_mode + 1 in
  if decide (display_mode > 1) then 0 else display_mode.

(** ['{:{p}>{w}}'.format(s, w=width, p=padchar)]: [s] right-aligned in a
    field of [width] characters filled with [padchar].  [padchar] is one
    character and [width] is not negative, as in every call of the
    program. *)
Definition zfl (s : string) (width : nat) (padchar : Ascii.ascii) : string :=
  String.string_of_list_ascii (replicate (width - String.length s) padchar) +:+ s.

Module ServoController.

Record t : Type := {
  _servo : Servo;
  angle : Q;
  speed : Z;
  vertical_offset : Z;
  marker : list Z;
  marker_offset : Z;
  min_angle : Z;
  max_angle : Z;
  _min_display_position : Z;
  _max_display_position : Z;
  _reversing : bool;
  display_mode : Z;
  min_position_being_updated : bool;
  max_position_being_updated : bool;
  position_being_updated : bool;
  speed_being_updated : bool;
  is_selected : bool;
  is_running : bool;
  _time_ref : Z
}.

(** Assignments to one attribute. *)

Definition set__servo (v : Servo) (self : t) : t :=
  {| _servo := v; angle := angle self; speed := speed self;
     vertical_offset := vertical_offset self; marker := marker self;
     marker_offset := marker_offset self; min_angle := min_angle self;
     max_angle := max_angle self;
     _min_display_position := _min_display_position self;
     _max_display_position := _max_display_position self;
     _reversing := _reversing self; display_mode := display_mode self;
     min_position_being_updated := min_position_being_updated self;
     max_position_being_updated := max_position_being_updated self;
     position_being_updated := position_being_updated self;
     speed_being_updated := speed_being_updated self;
     is_selected := is_selected self; is_running := is_running self;
     _time_ref := _time_ref self |}.

Definition set_angle (v : Q) (self : t) : t :=
  {| _servo := _servo self; angle := v; speed := speed self;
     vertical_offset := vertical_offset self; marker := marker self;
     marker_offset := marker_offset self; min_angle := min_angle self;
     max_angle := max_angle self;
     _min_display_position := _min_display_position self;
     _max_display_position := _max_display_position self;
     _reversing := _reversing self; display_mode := display_mode self;
     min_position_being_updated := min_position_being_updated self;
     max_position_being_updated := max_position_being_updated self;
     position_being_updated := position_being_updated self;
     speed_being_updated := speed_being_updated self;
     is_selected := is_selected self; is_running := is_running self;
     _time_ref := _time_ref self |}.

Definition set_speed (v : Z) (self : t) : t :=
  {| _servo := _servo self; angle := angle self; speed := v;
     vertical_offset := vertical_offset self; marker := marker self;
     marker_offset := marker_offset self; min_angle := min_angle self;
     max_angle := max_angle self;
     _min_display_position := _min_display_position self;
     _max_display_position := _max_display_position self;
     _reversing := _reversing self; display_mode := display_mode self;
     min_position_being_updated := min_position_being_updated self;
     max_position_being_updated := max_position_being_updated self;
     position_being_updated := position_being_updated self;
     speed_being_updated := speed_being_updated self;
     is_selected := is_selected self; is_running := is_running self;
     _time_ref := _time_ref self |}.

Definition set_min_angle (v : Z) (self : t) : t :=
  {| _servo := _servo self; angle := angle self; speed := speed self;
     vertical_offset := vertical_offset self; marker := marker self;
     marker_offset := marker_offset self; min_angle := v;
     max_angle := max_angle self;
     _min_display_position := _min_display_position self;
     _max_display_position := _max_display_position self;
     _reversing := _reversing self; display_mode := display_mode self;
     min_position_being_updated := min_position_being_updated self;
     max_position_being_updated := max_position_being_updated self;
     position_being_updated := position_being_updated self;
     speed_being_updated := speed_being_updated self;
     is_selected := is_selected self; is_running := is_running self;
     _time_ref := _time_ref self |}.

Definition set_max_angle (v : Z) (self : t) : t :=
  {| _servo := _servo self; angle := angle self; speed := speed self;
     vertical_offset := vertical_offset self; marker := marker self;
     marker_offset := marker_offset self; min_angle := min_angle self;
     max_angle := v; _min_display_position := _min_display_position self;
     _max_display_position := _max_display_position self;
     _reversing := _reversing self; display_mode := display_mode self;
     min_position_being_updated := min_position_being_updated self;
     max_position_being_updated := max_position_being_updated self;
     position_being_updated := position_being_updated self;
     speed_being_updated := speed_being_updated self;
     is_selected := is_selected self; is_running := is_running self;
     _time_ref := _time_ref self |}.

Definition set__reversing (v : bool) (self : t) : t :=
  {| _servo := _servo self; angle := angle self; speed := speed self;
     vertical_offset := vertical_offset self; marker := marker self;
     marker_offset := marker_offset self; min_angle := min_angle self;
     max_angle := max_angle self;
     _min_display_position := _min_display_position self;
     _max_display_position := _max_display_position self; _reversing := v;
     display_mode := display_mode self;
     min_position_being_updated := min_position_being_updated self;
     max_position_being_updated := max_position_being_updated self;
     position_being_updated := position_being_updated self;
     speed_being_updated := speed_being_updated self;
     is_selected := is_selected self; is_running := is_running self;
     _time_ref := _time_ref self |}.

Definition set_display_mode (v : Z) (self : t) : t :=
  {| _servo := _servo self; angle := angle self; speed := speed self;
     vertical_offset := vertical_offset self; marker := marker self;
     marker_offset := marker_offset self; min_angle := min_angle self;
     max_angle := max_angle self;
     _min_display_position := _min_display_position self;
     _max_display_position := _max_display_position self;
     _reversing := _reversing self; display_mode := v;
     min_position_being_updated := min_position_being_updated self;
     max_position_being_updated := max_position_being_updated self;
     position_being_updated := position_being_updated self;
     speed_being_updated := speed_being_updated self;
     is_selected := is_selected self; is_running := is_running self;
     _time_ref := _time_ref self |}.

Definition set_min_position_being_updated (v : bool) (self : t) : t :=
  {| _servo := _servo self; angle := angle self; speed := speed self;
     vertical_offset := vertical_offset self; marker := marker self;
     marker_offset := marker_offset self; min_angle := min_angle self;
     max_angle := max_angle self;
     _min_display_position := _min_display_position self;
     _max_display_position := _max_display_position self;
     _reversing := _reversing self; display_mode := display_mode self;
     min_position_being_updated := v;
     max_position_being_updated := max_position_being_updated self;
     position_being_updated := position_being_updated self;
     speed_being_updated := speed_being_updated self;
     is_selected := is_selected self; is_running := is_running self;
     _time_ref := _time_ref self |}.

Definition set_max_position_being_updated (v : bool) (self : t) : t :=
  {| _servo := _servo self; angle := angle self; speed := speed self;
     vertical_offset := vertical_offset self; marker := marker self;
     marker_offset := marker_offset self; min_angle := min_angle self;
     max_angle := max_angle self;
     _min_display_position := _min_display_position self;
     _max_display_position := _max_display_position self;
     _reversing := _reversing self; display_mode := display_mode self;
     min_position_being_updated := min_position_being_updated self;
     max_position_being_updated := v;
     position_being_updated := position_being_updated self;
     speed_being_updated := speed_being_updated self;
     is_selected := is_selected self; is_running := is_running self;
     _time_ref := _time_ref self |}.

Definition set_position_being_updated (v : bool) (self : t) : t :=
  {| _servo := _servo self; angle := angle self; speed := speed self;
     vertical_offset := vertical_offset self; marker := marker self;
     marker_offset := marker_offset self; min_angle := min_angle self;
     max_angle := max_angle self;
     _min_display_position := _min_display_position self;
     _max_display_position := _max_display_position self;
     _reversing := _reversing self; display_mode := display_mode self;
     min_position_being_updated := min_position_being_updated self;
     max_position_being_updated := max_position_being_updated self;
     position_being_updated := v;
     speed_being_updated := speed_being_updated self;
     is_selected := is_selected self; is_running := is_running self;
     _time_ref := _time_ref self |}.

Definition set_speed_being_updated (v : bool) (self : t) : t :=
  {| _servo := _servo self; angle := angle self; speed := speed self;
     vertical_offset := vertical_offset self; marker := marker self;
     marker_offset := marker_offset self; min_angle := min_angle self;
     max_angle := max_angle self;
     _min_display_position := _min_display_position self;
     _max_display_position := _max_display_position self;
     _reversing := _reversing self; display_mode := display_mode self;
     min_position_being_updated := min_position_being_updated self;
     max_position_being_updated := max_position_being_updated self;
     position_being_updated := position_being_updated self;
     speed_being_updated := v; is_selected := is_selected self;
     is_running := is_running self; _time_ref := _time_ref self |}.

Definition set_is_running (v : bool) (self : t) : t :=
  {| _servo := _servo self; angle := angle self; speed := speed self;
     vertical_offset := vertical_offset self; marker := marker self;
     marker_offset := marker_offset self; min_angle := min_angle self;
     max_angle := max_angle self;
     _min_display_position := _min_display_position self;
     _max_display_position := _max_display_position self;
     _reversing := _reversing self; display_mode := display_mode self;
     min_position_being_updated := min_position_being_updated self;
     max_position_being_updated := max_position_being_updated self;
     position_being_updated := position_being_updated self;
     speed_being_updated := speed_being_updated self;
     is_selected := is_selected self; is_running := v;
     _time_ref := _time_ref self |}.

Definition set__time_ref (v : Z) (self : t) : t :=
  {| _servo := _servo self; angle := angle self; speed := speed self;
     vertical_offset := vertical_offset self; marker := marker self;
     marker_offset := marker_offset self; min_angle := min_angle self;
     max_angle := max_angle self;
     _min_display_position := _min_display_position self;
     _max_display_position := _max_display_position self;
     _reversing := _reversing self; display_mode := display_mode self;
     min_position_being_updated := min_position_being_updated self;
     max_position_being_updated := max_position_being_updated self;
     position_being_updated := position_being_updated self;
     speed_being_updated := speed_being_updated self;
     is_selected := is_selected self; is_running := is_running self;
     _time_ref := v |}.

Definition __init__ (pin : Z) (angle : Q) (speed : Z) (vertical_offset : Z)
    (marker : list Z) (marker_offset : Z) : IO t :=
  now ← ticks_ms;
  mret {| _servo := {| servo_pin := pin; servo_value := None |};
          angle := angle; speed := speed;
          vertical_offset := vertical_offset; marker := marker;
          marker_offset := marker_offset;
          min_angle := 90; max_angle := 90;
          _min_display_position := 0; _max_display_position := 180;
          _reversing := false; display_mode := 0;
          min_position_being_updated := false;
          max_position_being_updated := false;
          position_being_updated := false;
          speed_being_updated := false;
          is_selected := false; is_running := false;
          _time_ref := now |}.

(** [self._servo.value(int(self.angle - 90))] *)
Definition move (self : t) : t :=
  set__servo {| servo_pin := servo_pin (_servo self);
                servo_value := Some (Py.int (angle self - 90)) |} self.

Definition run (self : t) : t := set_is_running true self.

Definition stop (self : t) : t := set_is_running false self.

Definition display_small (self : t) : t := set_display_mode 0 self.

Definition display_full (self : t) : t := set_display_mode 1 self.

Definition min_position_setting_toggle (self : t) : t :=
  let self := set_min_position_being_updated
                (negb (min_position_being_updated self)) self in
  if min_position_being_updated self then
    let self := set_max_position_being_updated false self in
    let self := set_speed_being_updated false self in
    stop self
  else self.

Definition max_position_setting_toggle (self : t) : t :=
  let self := set_max_position_being_updated
                (negb (max_position_being_updated self)) self in
  if max_position_being_updated self then
    let self := set_min_position_being_updated false self in
    let self := set_speed_being_updated false self in
    stop self
  else self.

Definition position_and_min_setting_toggle (self : t) : t :=
  let self := set_min_position_being_updated
                (negb (min_position_being_updated self)) self in
  let self := set_position_being_updated (min_position_being_updated self) self in
  let self := set_angle (Py.of_int (min_angle self)) self in
  if min_position_being_updated self then
    let self := set_max_position_being_updated false self in
    set_speed_being_updated false self
  else self.

Definition position_and_max_setting_toggle (self : t) : t :=
  let self := set_max_position_being_updated
                (negb (max_position_being_updated self)) self in
  let self := set_position_being_updated (max_position_being_updated self) self in
  let self := set_angle (Py.of_int (max_angle self)) self in
  if max_position_being_updated self then
    let self := set_min_position_being_updated false self in
    set_speed_being_updated false self
  else self.

Definition speed_setting_toggle (self : t) : t :=
  let self := set_speed_being_updated (negb (speed_being_updated self)) self in
  if speed_being_updated self then
    let self := set_min_position_being_updated false self in
    let self := set_max_position_being_updated false self in
    set_position_being_updated false self
  else self.

Definition toggle_run (self : t) : t :=
  let self := set_is_running (negb (is_running self)) self in
  let self := set_min_position_being_updated false self in
  let self := set_max_position_being_updated false self in
  let self := set_position_being_updated false self in
  set_speed_being_updated false self.

Definition increment_value (self : t) : t :=
  let self :=
    if min_position_being_updated self then
      let self := set_min_angle (min_angle self + 2) self in
      if decide (min_angle self > 180) then set_min_angle 180 self else self
    else self in
  let self :=
    if max_position_being_updated self then
      let self := set_max_angle (max_angle self + 2) self in
      if decide (max_angle self > 180) then set_max_angle 180 self else self
    else self in
  (* if we're moving min and it's > max, increment max also *)
  let self :=
    if decide (min_angle self > max_angle self)
    then set_max_angle (min_angle self) self else self in
  let self :=
    if speed_being_updated self then
      let self := set_speed (speed self + 2) self in
      if decide (speed self > 150) then set_speed 150 self else self
    else self in
  if position_being_updated self then
    let self := set_angle (angle self + 2) self in
    if Qgt_dec (angle self) 180 then set_angle 180 self else self
  else self.

Definition decrement_value (self : t) : t :=
  let self :=
    if min_position_being_updated self then
      let self := set_min_angle (min_angle self - 2) self in
      if decide (min_angle self < 0) then set_min_angle 0 self else self
    else self in
  let self :=
    if max_position_being_updated self then
      let self := set_max_angle (max_angle self - 2) self in
      if decide (max_angle self < 0) then set_max_angle 0 self else self
    else self in
  let self :=
    if decide (max_angle self < min_angle self)
    then set_min_angle (max_angle self) self else self in
  let self :=
    if speed_being_updated self then
      let self := set_speed (speed self - 1) self in
      if decide (speed self < 1) then set_speed 1 self else self
    else self in
  if position_being_updated self then
    let self := set_angle (angle self - 2) self in
    if Qlt_dec (angle self) 0 then set_angle 0 self else self
  else self.

Section WithRuntime.
Variable ticks_diff : Z -> Z -> Z.

(** [self.speed * self._time_delta / 1000]: the product of two ints,
    divided as a float by a constant that is not zero. *)
Definition angle_delta (speed time_delta : Z) : Q :=
  (Py.of_int (speed * time_delta) / 1000)%Q.

(** [_time_delta] and [_angle_delta] are attributes that only [update]
    reads, always after writing them: they are local here. *)
Definition update (self : t) : IO t :=
  now ← ticks_ms;
  let _time_delta := ticks_diff now (_time_ref self) in
  now' ← ticks_ms;
  let self := set__time_ref now' self in
  let _angle_delta := angle_delta (speed self) _time_delta in
  let self :=
    if is_running self then
      if _reversing self then
        let self := set_angle (angle self - _angle_delta) self in
        if Qlt_dec (angle self) (Py.of_int (min_angle self)) then
          let self := set_angle (Py.of_int (min_angle self)) self in
          set__reversing false self
        else self
      else
        let self := set_angle (angle self + _angle_delta) self in
        if Qgt_dec (angle self) (Py.of_int (max_angle self)) then
          let self := set_angle (Py.of_int (max_angle self)) self in
          set__reversing true self
        else self
    else self in
  mret (move self).

End WithRuntime.

End ServoController.

(** Servo objects are shared between the application controller and the
    button mappings: they live in a store and are named by their index. *)
Definition Store : Type := list ServoController.t.

(** A method call [thing.f()] on the object named [thing]. *)
Definition call (f : ServoController.t -> ServoController.t) (thing : nat)
    (store : Store) : Store :=
  alter f thing store.

(** An entry [{"object": ..., "method": ...}] of a button mapping. *)
Record Binding : Set := { object : nat; method : string }.

Module ApplicationController.

Record t : Type := {
  application_state : Z;
  _object_list : list nat;
  _num_states : Z;
  _menu_list : list (ButtonController.t Binding)
}.

Definition __init__ (object_list : list nat)
    (menu_list : list (ButtonController.t Binding))
    (application_state num_states : Z) : t :=
  {| application_state := application_state; _object_list := object_list;
     _num_states := num_states; _menu_list := menu_list |}.

Definition set_application_state (v : Z) (self : t) : t :=
  {| application_state := v; _object_list := _object_list self;
     _num_states := _num_states self; _menu_list := _menu_list self |}.

(** [None] stands for the [IndexError] of [self._object_list[i]]. *)
Definition _handle_state_change (self : t) (store : Store) : option Store :=
  if decide (application_state self = 0) then
    Some (foldl (fun store thing =>
                   let store := call ServoController.display_small thing store in
                   call ServoController.run thing store)
                store (_object_list self))
  else if decide (application_state self = 1) then
    let store := foldl (fun store thing => call ServoController.stop thing store)
                   store (_object_list self) in
    thing ← _object_list self !! 0%nat;
    Some (call ServoController.display_full thing store)
  else if decide (application_state self = 2) then
    let store := foldl (fun store thing => call ServoController.stop thing store)
                   store (_object_list self) in
    thing ← _object_list self !! 1%nat;
    Some (call ServoController.display_full thing store)
  else Some store.

Definition increment_state (self : t) (store : Store) : option (t * Store) :=
  let self := set_application_state (application_state self + 1) self in
  let self :=
    if decide (application_state self > _num_states self - 1)
    then set_application_state 0 self else self in
  store ← _handle_state_change self store;
  Some (self, store).

End ApplicationController.

(** The objects [__main__] builds before its loop: the two servos (in the
    store, [servoD5] at index 0 and [servoD7] at index 1), the three
    button controllers and the application controller. *)
Definition servoD5 : nat := 0.
Definition servoD7 : nat := 1.

Definition button_mapping_main : list (Button * Binding) :=
  [ (BUTTON_A, {| object := servoD5; method := "min_position_setting_toggle" |});
    (BUTTON_X, {| object := servoD5; method := "max_position_setting_toggle" |});
    (BUTTON_B, {| object := servoD7; method := "min_position_setting_toggle" |});
    (BUTTON_Y, {| object := servoD7; method := "max_position_setting_toggle" |}) ].

Definition button_mapping_servoD5 : list (Button * Binding) :=
  [ (BUTTON_A, {| object := servoD5; method := "position_and_min_setting_toggle" |});
    (BUTTON_X, {| object := servoD5; method := "position_and_max_setting_toggle" |});
    (BUTTON_B, {| object := servoD5; method := "speed_setting_toggle" |});
    (BUTTON_Y, {| object := servoD5; method := "toggle_run" |}) ].

Definition button_mapping_servoD7 : list (Button * Binding) :=
  [ (BUTTON_A, {| object := servoD7; method := "speed_setting_toggle" |});
    (BUTTON_X, {| object := servoD7; method := "toggle_run" |});
    (BUTTON_B, {| object := servoD7; method := "position_and_min_setting_toggle" |});
    (BUTTON_Y, {| object := servoD7; method := "position_and_max_setting_toggle" |}) ].

Definition main_init : IO (ApplicationController.t * Store) :=
  d5 ← ServoController.__init__ 2 90 20 25 up_arrow 0;
  d7 ← ServoController.__init__ 3 90 60 90 down_arrow (-25);
  buttons0 ← ButtonController.__init__ button_mapping_main 500;
  buttons1 ← ButtonController.__init__ button_mapping_servoD5 500;
  buttons2 ← ButtonController.__init__ button_mapping_servoD7 500;
  let app := ApplicationController.__init__ [servoD5; servoD7]
               [buttons0; buttons1; buttons2] 0 3 in
  mret (app, [d5; d7]).


(** The methods of [ServoController] that the mappings of [__main__]
    name, as [getattr(object, name)] finds them; [None] stands for
    [AttributeError]. *)
Definition methods : list (string * (ServoController.t -> ServoController.t)) :=
  [ ("min_position_setting_toggle", ServoController.min_position_setting_toggle);
    ("max_position_setting_toggle", ServoController.max_position_setting_toggle);
    ("position_and_min_setting_toggle", ServoController.position_and_min_setting_toggle);
    ("position_and_max_setting_toggle", ServoController.position_and_max_setting_toggle);
    ("speed_setting_toggle", ServoController.speed_setting_toggle);
    ("toggle_run", ServoController.toggle_run);
    ("increment_value", ServoController.increment_value);
    ("decrement_value", ServoController.decrement_value) ].

Definition getattr (name : string) : option (ServoController.t -> ServoController.t) :=
  snd <$> find (fun m => String.eqb name m.1) methods.

(** [getattr(object, method)()] for each of [calls], first to last, as
    the loops of the controllers make them. *)
Fixpoint dispatch (calls : list (nat * string)) (store : Store) : option Store :=
  match calls with
  | [] => Some store
  | (object, method) :: rest =>
      f ← getattr method;
      dispatch rest (call f object store)
  end.

Definition rotary_mapping_main : list (nat * RotaryController.Methods) :=
  [ (servoD5, {| RotaryController.inc_method := "increment_value";
                 RotaryController.dec_method := "decrement_value" |});
    (servoD7, {| RotaryController.inc_method := "increment_value";
                 RotaryController.dec_method := "decrement_value" |}) ].

(** [PinButton]: the level of the input pin is what the board reads;
    [level] is the value [self._button.value()] returns. *)
Module PinButton.

Record t : Set := { _pin : Z; _pullup : bool }.

Definition __init__ (pin : Z) (pullup : bool) : t :=
  {| _pin := pin; _pullup := pullup |}.

Definition value (level : Z) (self : t) : Z := level.

Definition is_pressed (level : Z) (self : t) : bool :=
  if _pullup self then bool_decide (value level self = 0)
  else bool_decide (value level self = 1).

End PinButton.

(** [PinButtonController], the copy of [ButtonController] whose keys are
    [PinButton] objects; [levels] gives the level of the pin of each. *)
Module PinButtonController.
Section WithRuntime.
Variable ticks_diff : Z -> Z -> Z.
Context {Target : Type}.

Record t : Type := {
  _mapping : list (PinButton.t * Target);
  debounce_interval : Z;
  _time_last_checked : Z
}.

Definition __init__ (mapping : list (PinButton.t * Target))
    (debounce_interval : Z) : IO t :=
  now ← ticks_ms;
  mret {| _mapping := mapping; debounce_interval := debounce_interval;
          _time_last_checked := now |}.

Fixpoint check_loop (levels : PinButton.t -> Z) (interval : Z)
    (items : list (PinButton.t * Target)) (last : Z) : IO (Z * list Target) :=
  match items with
  | [] => mret (last, [])
  | (button, target) :: rest =>
      if PinButton.is_pressed (levels button) button then
        now ← ticks_ms;
        if decide (ticks_diff now last > interval) then
          now' ← ticks_ms;
          r ← check_loop levels interval rest now';
          mret (r.1, target :: r.2)
        else check_loop levels interval rest last
      else check_loop levels interval rest last
  end.

Definition check (levels : PinButton.t -> Z) (self : t) : IO (t * list Target) :=
  r ← check_loop levels (debounce_interval self) (_mapping self)
        (_time_last_checked self);
  mret ({| _mapping := _mapping self;
           debounce_interval := debounce_interval self;
           _time_last_checked := r.1 |}, r.2).

End WithRuntime.
Arguments t : clear implicits.
End PinButtonController.
End Rich.

(** * stethoscope-simple.py, the simplified variant *)

Module Simple.

(** ['{:0>{w}}'.format(s, w=width)]: [s] right-aligned in a field of
    [width] characters filled with zeros; [width] is not negative, as in
    every call of the program. *)
Definition zfl (s : string) (width : nat) : string :=
  String.string_of_list_ascii (replicate (width - String.length s) "0"%char) +:+ s.

Module ServoController.

Record t : Type := {
  _servo : Servo;
  angle : Q;
  speed : Z;
  vertical_offset : Z;
  marker : list Z;
  marker_offset : Z;
  min_angle : Z;
  max_angle : Z;
  _min_display_position : Z;
  _max_display_position : Z;
  _reversing : bool;
  min_position_being_updated : bool;
  max_position_being_updated : bool;
  position_being_updated : bool;
  speed_being_updated : bool;
  is_selected : bool;
  _time_ref : Z
}.

(** Assignments to one attribute. *)

Definition set_angle (v : Q) (self : t) : t :=
  {| _servo := _servo self; angle := v; speed := speed self;
     vertical_offset := vertical_offset self; marker := marker self;
     marker_offset := marker_offset self; min_angle := min_angle self;
     max_angle := max_angle self;
     _min_display_position := _min_display_position self;
     _max_display_position := _max_display_position self;
     _reversing := _reversing self;
     min_position_being_updated := min_position_being_updated self;
     max_position_being_updated := max_position_being_updated self;
     position_being_updated := position_being_updated self;
     speed_being_updated := speed_being_updated self;
     is_selected := is_selected self; _time_ref := _time_ref self |}.

Definition set_min_angle (v : Z) (self : t) : t :=
  {| _servo := _servo self; angle := angle self; speed := speed self;
     vertical_offset := vertical_offset self; marker := marker self;
     marker_offset := marker_offset self; min_angle := v;
     max_angle := max_angle self;
     _min_display_position := _min_display_position self;
     _max_display_position := _max_display_position self;
     _reversing := _reversing self;
     min_position_being_updated := min_position_being_updated self;
     max_position_being_updated := max_position_being_updated self;
     position_being_updated := position_being_updated self;
     speed_being_updated := speed_being_updated self;
     is_selected := is_selected self; _time_ref := _time_ref self |}.

Definition set_max_angle (v : Z) (self : t) : t :=
  {| _servo := _servo self; angle := angle self; speed := speed self;
     vertical_offset := vertical_offset self; marker := marker self;
     marker_offset := marker_offset self; min_angle := min_angle self;
     max_angle := v; _min_display_position := _min_display_position self;
     _max_display_position := _max_display_position self;
     _reversing := _reversing self;
     min_position_being_updated := min_position_being_updated self;
     max_position_being_updated := max_position_being_updated self;
     position_being_updated := position_being_updated self;
     speed_being_updated := speed_being_updated self;
     is_selected := is_selected self; _time_ref := _time_ref self |}.

Definition set__reversing (v : bool) (self : t) : t :=
  {| _servo := _servo self; angle := angle self; speed := speed self;
     vertical_offset := vertical_offset self; marker := marker self;
     marker_offset := marker_offset self; min_angle := min_angle self;
     max_angle := max_angle self;
     _min_display_position := _min_display_position self;
     _max_display_position := _max_display_position self; _reversing := v;
     min_position_being_updated := min_position_being_updated self;
     max_position_being_updated := max_position_being_updated self;
     position_being_updated := position_being_updated self;
     speed_being_updated := speed_being_updated self;
     is_selected := is_selected self; _time_ref := _time_ref self |}.

Definition set_min_position_being_updated (v : bool) (self : t) : t :=
  {| _servo := _servo self; angle := angle self; speed := speed self;
     vertical_offset := vertical_offset self; marker := marker self;
     marker_offset := marker_offset self; min_angle := min_angle self;
     max_angle := max_angle self;
     _min_display_position := _min_display_position self;
     _max_display_position := _max_display_position self;
     _reversing := _reversing self; min_position_being_updated := v;
     max_position_being_updated := max_position_being_updated self;
     position_being_updated := position_being_updated self;
     speed_being_updated := speed_being_updated self;
     is_selected := is_selected self; _time_ref := _time_ref self |}.

Definition set_max_position_being_updated (v : bool) (self : t) : t :=
  {| _servo := _servo self; angle := angle self; speed := speed self;
     vertical_offset := vertical_offset self; marker := marker self;
     marker_offset := marker_offset self; min_angle := min_angle self;
     max_angle := max_angle self;
     _min_display_position := _min_display_position self;
     _max_display_position := _max_display_position self;
     _reversing := _reversing self;
     min_position_being_updated := min_position_being_updated self;
     max_position_being_updated := v;
     position_being_updated := position_being_updated self;
     speed_being_updated := speed_being_updated self;
     is_selected := is_selected self; _time_ref := _time_ref self |}.

Definition set__time_ref (v : Z) (self : t) : t :=
  {| _servo := _servo self; angle := angle self; speed := speed self;
     vertical_offset := vertical_offset self; marker := marker self;
     marker_offset := marker_offset self; min_angle := min_angle self;
     max_angle := max_angle self;
     _min_display_position := _min_display_position self;
     _max_display_position := _max_display_position self;
     _reversing := _reversing self;
     min_position_being_updated := min_position_being_updated self;
     max_position_being_updated := max_position_being_updated self;
     position_being_updated := position_being_updated self;
     speed_being_updated := speed_being_updated self;
     is_selected := is_selected self; _time_ref := v |}.

Definition set__servo (v : Servo) (self : t) : t :=
  {| _servo := v; angle := angle self; speed := speed self;
     vertical_offset := vertical_offset self; marker := marker self;
     marker_offset := marker_offset self; min_angle := min_angle self;
     max_angle := max_angle self;
     _min_display_position := _min_display_position self;
     _max_display_position := _max_display_position self;
     _reversing := _reversing self;
     min_position_being_updated := min_position_being_updated self;
     max_position_being_updated := max_position_being_updated self;
     position_being_updated := position_being_updated self;
     speed_being_updated := speed_being_updated self;
     is_selected := is_selected self; _time_ref := _time_ref self |}.

Definition __init__ (pin : Z) (angle : Q) (speed : Z) (vertical_offset : Z)
    (marker : list Z) (marker_offset : Z) : IO t :=
  now ← ticks_ms;
  mret {| _servo := {| servo_pin := pin; servo_value := None |};
          angle := angle; speed := speed;
          vertical_offset := vertical_offset; marker := marker;
          marker_offset := marker_offset;
          min_angle := 0; max_angle := 180;
          _min_display_position := 0; _max_display_position := 180;
          _reversing := false;
          min_position_being_updated := false;
          max_position_being_updated := false;
          position_being_updated := false;
          speed_being_updated := false;
          is_selected := false;
          _time_ref := now |}.

(** [self._servo.value(int(self.angle - 90))] *)
Definition move (self : t) : t :=
  set__servo {| servo_pin := servo_pin (_servo self);
                servo_value := Some (Py.int (angle self - 90)) |} self.

Definition min_position_setting_toggle (self : t) : t :=
  let self := set_min_position_being_updated
                (negb (min_position_being_updated self)) self in
  if min_position_being_updated self then
    set_max_position_being_updated false self
  else self.

Definition max_position_setting_toggle (self : t) : t :=
  let self := set_max_position_being_updated
                (negb (max_position_being_updated self)) self in
  if max_position_being_updated self then
    set_min_position_being_updated false self
  else self.

Definition increment_value (self : t) : t :=
  let self :=
    if min_position_being_updated self
    then set_min_angle (min_angle self + 1) self else self in
  let self :=
    if decide (min_angle self > 180) then set_min_angle 180 self else self in
  let self :=
    if max_position_being_updated self
    then set_max_angle (max_angle self + 1) self else self in
  let self :=
    if decide (max_angle self > 180) then set_max_angle 180 self else self in
  (* if we're moving min and it's > max, increment max also *)
  if decide (min_angle self > max_angle self)
  then set_max_angle (min_angle self) self else self.

Definition decrement_value (self : t) : t :=
  let self :=
    if min_position_being_updated self
    then set_min_angle (min_angle self - 1) self else self in
  let self :=
    if decide (min_angle self < 0) then set_min_angle 0 self else self in
  let self :=
    if max_position_being_updated self
    then set_max_angle (max_angle self - 1) self else self in
  let self :=
    if decide (max_angle self < 0) then set_max_angle 0 self else self in
  if decide (max_angle self < min_angle self)
  then set_min_angle (max_angle self) self else self.

Section WithRuntime.
Variable ticks_diff : Z -> Z -> Z.

(** [self.speed * self._time_delta / 1000] *)
Definition angle_delta (speed time_delta : Z) : Q :=
  (Py.of_int (speed * time_delta) / 1000)%Q.

Definition update (self : t) : IO t :=
  now ← ticks_ms;
  let _time_delta := ticks_diff now (_time_ref self) in
  now' ← ticks_ms;
  let self := set__time_ref now' self in
  let _angle_delta := angle_delta (speed self) _time_delta in
  mret (if _reversing self then
          let self := set_angle (angle self - _angle_delta) self in
          if Qlt_dec (angle self) (Py.of_int (min_angle self)) then
            let self := set_angle (Py.of_int (min_angle self)) self in
            set__reversing false self
          else self
        else
          let self := set_angle (angle self + _angle_delta) self in
          if Qgt_dec (angle self) (Py.of_int (max_angle self)) then
            let self := set_angle (Py.of_int (max_angle self)) self in
            set__reversing true self
          else self).

End WithRuntime.

End ServoController.

End Simple.

(** * Vocabulary of the properties *)

(** ** Sequences of calls *)

(** The five selection toggles of the richer variant, by name. *)
Inductive Toggle : Set :=
  | Min_position_setting_toggle
  | Max_position_setting_toggle
  | Position_and_min_setting_toggle
  | Position_and_max_setting_toggle
  | Speed_setting_toggle.

Definition rich_toggle (k : Toggle) : Rich.ServoController.t -> Rich.ServoController.t :=
  match k with
  | Min_position_setting_toggle => Rich.ServoController.min_position_setting_toggle
  | Max_position_setting_toggle => Rich.ServoController.max_position_setting_toggle
  | Position_and_min_setting_toggle => Rich.ServoController.position_and_min_setting_toggle
  | Position_and_max_setting_toggle => Rich.ServoController.position_and_max_setting_toggle
  | Speed_setting_toggle => Rich.ServoController.speed_setting_toggle
  end.

(** The calls of [ks], first to last. *)
Definition rich_toggles (ks : list Toggle) (s : Rich.ServoController.t) : Rich.ServoController.t :=
  foldl (fun s k => rich_toggle k s) s ks.

(** The two selection toggles of the simplified variant: [true] for
    [min_position_setting_toggle], [false] for [max_position_setting_toggle]. *)
Definition simple_toggles (ks : list bool) (s : Simple.ServoController.t) : Simple.ServoController.t :=
  foldl (fun s (k : bool) =>
           if k then Simple.ServoController.min_position_setting_toggle s
           else Simple.ServoController.max_position_setting_toggle s) s ks.

(** How many of the booleans of [l] are true. *)
Definition count_true (l : list bool) : nat := length (filter (fun b => b = true) l).

Definition rich_flags (s : Rich.ServoController.t) : list bool :=
  [ Rich.ServoController.min_position_being_updated s;
    Rich.ServoController.max_position_being_updated s;
    Rich.ServoController.speed_being_updated s;
    Rich.ServoController.position_being_updated s ].

Definition simple_flags (s : Simple.ServoController.t) : list bool :=
  [ Simple.ServoController.min_position_being_updated s;
    Simple.ServoController.max_position_being_updated s;
    Simple.ServoController.speed_being_updated s;
    Simple.ServoController.position_being_updated s ].






(** [lo <= q <= hi], for integer bounds. *)
Definition between (lo hi : Z) (q : Q) : Prop :=
  (Py.of_int lo <= q)%Q /\ (q <= Py.of_int hi)%Q.






(** A servo as [__main__] of the richer variant has it after start-up. *)
Definition rich_servo0 : Rich.ServoController.t :=
  (Rich.ServoController.__init__ 2 90 20 25 up_arrow 0 (clock_of [] 0)).1.

(** A servo as [__main__] of the simplified variant has it after start-up. *)
Definition simple_servo0 : Simple.ServoController.t :=
  (Simple.ServoController.__init__ 2 90 20 25 up_arrow 0 (clock_of [] 0)).1.





(** The state of the example: bounds 0 and 180, speed 20, angle 90,
    sweeping forward (and running, in the richer variant). *)
Definition rich_mid_sweep (s : Rich.ServoController.t) : Prop :=
  Rich.ServoController.min_angle s = 0
  /\ Rich.ServoController.max_angle s = 180
  /\ Rich.ServoController.speed s = 20
  /\ (Rich.ServoController.angle s == 90)%Q
  /\ Rich.ServoController._reversing s = false
  /\ Rich.ServoController.is_running s = true.

Definition simple_mid_sweep (s : Simple.ServoController.t) : Prop :=
  Simple.ServoController.min_angle s = 0
  /\ Simple.ServoController.max_angle s = 180
  /\ Simple.ServoController.speed s = 20
  /\ (Simple.ServoController.angle s == 90)%Q
  /\ Simple.ServoController._reversing s = false.

(** Such a state of the richer variant: a servo as built at start-up,
    set running, with its bounds opened to 0 and 180. *)
Definition rich_servo_open : Rich.ServoController.t :=
  Rich.ServoController.set_max_angle 180
    (Rich.ServoController.set_min_angle 0
       (Rich.ServoController.run rich_servo0)).

(** [n] presses of the mode button, each one a call of [increment_state]. *)
Fixpoint rich_increment_states (n : nat) (app : Rich.ApplicationController.t)
    (store : Rich.Store) : option (Rich.ApplicationController.t * Rich.Store) :=
  match n with
  | O => Some (app, store)
  | S k =>
      r ← Rich.ApplicationController.increment_state app store;
      rich_increment_states k r.1 r.2
  end.

(** Only the button [b] is held down. *)
Definition only (b : Button) : Button -> bool := fun x => bool_decide (x = b).

(** A button controller as [__main__] builds it for the main screen, when
    the clock reads 0. *)
Definition buttons_at_0 : ButtonController.t Rich.Binding :=
  (ButtonController.__init__ Rich.button_mapping_main 500 (clock_of [0] 0)).1.

(** What the toggles of the richer variant keep: at most one of the
    flags for min, max and speed is set, and the flag for the position is
    never set together with the one for the speed. *)
Definition rich_selection_ok (s : Rich.ServoController.t) : Prop :=
  (count_true [ Rich.ServoController.min_position_being_updated s;
                Rich.ServoController.max_position_being_updated s;
                Rich.ServoController.speed_being_updated s ] <= 1)%nat
  /\ Rich.ServoController.speed_being_updated s
     && Rich.ServoController.position_being_updated s = false.

(** ** Domains *)

(** The domains of the attributes a servo is driven by: the bounds
    ordered within 0..180, the speed within 1..150, the angle within
    0..180. *)
Definition rich_well_formed (s : Rich.ServoController.t) : Prop :=
  0 <= Rich.ServoController.min_angle s
  /\ Rich.ServoController.min_angle s <= Rich.ServoController.max_angle s
  /\ Rich.ServoController.max_angle s <= 180
  /\ 1 <= Rich.ServoController.speed s
  /\ Rich.ServoController.speed s <= 150
  /\ between 0 180 (Rich.ServoController.angle s).

Definition simple_well_formed (s : Simple.ServoController.t) : Prop :=
  0 <= Simple.ServoController.min_angle s
  /\ Simple.ServoController.min_angle s <= Simple.ServoController.max_angle s
  /\ Simple.ServoController.max_angle s <= 180
  /\ 0 <= Simple.ServoController.speed s
  /\ between 0 180 (Simple.ServoController.angle s).

(** The servo driver has been given no value yet, or a value within
    -90..90. *)
Definition servo_in_range (servo : Servo) : Prop :=
  match servo_value servo with
  | Some v => -90 <= v <= 90
  | None => True
  end.

(** The calls a servo of the richer variant receives while the program
    runs: from the buttons, from the encoder, from the application
    controller and from the main loop. *)
Inductive Call : Set :=
  | CToggle (k : Toggle)
  | CToggleRun
  | CRun
  | CStop
  | CDisplaySmall
  | CDisplayFull
  | CIncrement
  | CDecrement
  | CMove
  | CUpdate.

Definition rich_call (ticks_diff : Z -> Z -> Z) (k : Call)
    (s : Rich.ServoController.t) : IO Rich.ServoController.t :=
  match k with
  | CToggle k => mret (rich_toggle k s)
  | CToggleRun => mret (Rich.ServoController.toggle_run s)
  | CRun => mret (Rich.ServoController.run s)
  | CStop => mret (Rich.ServoController.stop s)
  | CDisplaySmall => mret (Rich.ServoController.display_small s)
  | CDisplayFull => mret (Rich.ServoController.display_full s)
  | CIncrement => mret (Rich.ServoController.increment_value s)
  | CDecrement => mret (Rich.ServoController.decrement_value s)
  | CMove => mret (Rich.ServoController.move s)
  | CUpdate => Rich.ServoController.update ticks_diff s
  end.

Fixpoint rich_calls (ticks_diff : Z -> Z -> Z) (ks : list Call)
    (s : Rich.ServoController.t) : IO Rich.ServoController.t :=
  match ks with
  | [] => mret s
  | k :: ks => s' ← rich_call ticks_diff k s; rich_calls ticks_diff ks s'
  end.

(** Every [update] among the calls [ks] measures an elapsed time that is
    not negative. *)
Fixpoint updates_elapsed_nonneg (ticks_diff : Z -> Z -> Z) (ks : list Call)
    (s : Rich.ServoController.t) (c : Clock) : Prop :=
  match ks with
  | [] => True
  | k :: ks =>
      (k = CUpdate -> 0 <= ticks_diff (c 0%nat) (Rich.ServoController._time_ref s))
      /\ updates_elapsed_nonneg ticks_diff ks (rich_call ticks_diff k s c).1
           (rich_call ticks_diff k s c).2
  end.

(** [n] calls of [increment_value] ([true]) or [decrement_value]
    ([false]), first to last. *)
Definition rich_steps (ks : list bool) (s : Rich.ServoController.t) : Rich.ServoController.t :=
  foldl (fun s (up : bool) =>
           if up then Rich.ServoController.increment_value s
           else Rich.ServoController.decrement_value s) s ks.

(** The arm shows the bound being edited on a detail screen: the flag
    for the position is set with the flag for exactly one of the bounds,
    and the angle is that bound. *)
Definition rich_previewing_min (s : Rich.ServoController.t) : Prop :=
  rich_flags s = [true; false; false; true]
  /\ (Rich.ServoController.angle s == Py.of_int (Rich.ServoController.min_angle s))%Q.

Definition rich_previewing_max (s : Rich.ServoController.t) : Prop :=
  rich_flags s = [false; true; false; true]
  /\ (Rich.ServoController.angle s == Py.of_int (Rich.ServoController.max_angle s))%Q.

(** * Proof tools *)

(** A method body is a chain of [let self := ... in ...]: it is run one
    assignment at a time, each assigned value being brought to a record
    before the next statement reads it. *)
Lemma let_elim {A B : Type} (E : A) (f : A -> B) (r : B) :
  r = (let x := E in f x) -> exists x, x = E /\ r = f x.
Proof. intros H. exists E. split; [reflexivity | exact H]. Qed.

Ltac sc_simpl_in H :=
  cbv beta iota zeta delta [negb fst snd
    Rich.ServoController._servo Rich.ServoController.angle
    Rich.ServoController.speed Rich.ServoController.vertical_offset
    Rich.ServoController.marker Rich.ServoController.marker_offset
    Rich.ServoController.min_angle Rich.ServoController.max_angle
    Rich.ServoController._min_display_position
    Rich.ServoController._max_display_position
    Rich.ServoController._reversing Rich.ServoController.display_mode
    Rich.ServoController.min_position_being_updated
    Rich.ServoController.max_position_being_updated
    Rich.ServoController.position_being_updated
    Rich.ServoController.speed_being_updated
    Rich.ServoController.is_selected Rich.ServoController.is_running
    Rich.ServoController._time_ref
    Rich.ServoController.set__servo Rich.ServoController.set_angle
    Rich.ServoController.set_speed Rich.ServoController.set_min_angle
    Rich.ServoController.set_max_angle Rich.ServoController.set__reversing
    Rich.ServoController.set_display_mode
    Rich.ServoController.set_min_position_being_updated
    Rich.ServoController.set_max_position_being_updated
    Rich.ServoController.set_position_being_updated
    Rich.ServoController.set_speed_being_updated
    Rich.ServoController.set_is_running Rich.ServoController.set__time_ref
    Rich.ServoController.stop Rich.ServoController.run
    Rich.ServoController.move Rich.ServoController.display_small
    Rich.ServoController.display_full
    Simple.ServoController._servo Simple.ServoController.angle
    Simple.ServoController.speed Simple.ServoController.vertical_offset
    Simple.ServoController.marker Simple.ServoController.marker_offset
    Simple.ServoController.min_angle Simple.ServoController.max_angle
    Simple.ServoController._min_display_position
    Simple.ServoController._max_display_position
    Simple.ServoController._reversing
    Simple.ServoController.min_position_being_updated
    Simple.ServoController.max_position_being_updated
    Simple.ServoController.position_being_updated
    Simple.ServoController.speed_being_updated
    Simple.ServoController.is_selected Simple.ServoController._time_ref
    Simple.ServoController.set__servo Simple.ServoController.set_angle
    Simple.ServoController.set_min_angle Simple.ServoController.set_max_angle
    Simple.ServoController.set__reversing
    Simple.ServoController.set_min_position_being_updated
    Simple.ServoController.set_max_position_being_updated
    Simple.ServoController.set__time_ref Simple.ServoController.move
    servo_pin servo_value] in H.

Ltac sc_simpl :=
  cbv beta iota zeta delta [negb fst snd
    Rich.ServoController._servo Rich.ServoController.angle
    Rich.ServoController.speed Rich.ServoController.vertical_offset
    Rich.ServoController.marker Rich.ServoController.marker_offset
    Rich.ServoController.min_angle Rich.ServoController.max_angle
    Rich.ServoController._min_display_position
    Rich.ServoController._max_display_position
    Rich.ServoController._reversing Rich.ServoController.display_mode
    Rich.ServoController.min_position_being_updated
    Rich.ServoController.max_position_being_updated
    Rich.ServoController.position_being_updated
    Rich.ServoController.speed_being_updated
    Rich.ServoController.is_selected Rich.ServoController.is_running
    Rich.ServoController._time_ref
    Rich.ServoController.set__servo Rich.ServoController.set_angle
    Rich.ServoController.set_speed Rich.ServoController.set_min_angle
    Rich.ServoController.set_max_angle Rich.ServoController.set__reversing
    Rich.ServoController.set_display_mode
    Rich.ServoController.set_min_position_being_updated
    Rich.ServoController.set_max_position_being_updated
    Rich.ServoController.set_position_being_updated
    Rich.ServoController.set_speed_being_updated
    Rich.ServoController.set_is_running Rich.ServoController.set__time_ref
    Rich.ServoController.stop Rich.ServoController.run
    Rich.ServoController.move Rich.ServoController.display_small
    Rich.ServoController.display_full
    Simple.ServoController._servo Simple.ServoController.angle
    Simple.ServoController.speed Simple.ServoController.vertical_offset
    Simple.ServoController.marker Simple.ServoController.marker_offset
    Simple.ServoController.min_angle Simple.ServoController.max_angle
    Simple.ServoController._min_display_position
    Simple.ServoController._max_display_position
    Simple.ServoController._reversing
    Simple.ServoController.min_position_being_updated
    Simple.ServoController.max_position_being_updated
    Simple.ServoController.position_being_updated
    Simple.ServoController.speed_being_updated
    Simple.ServoController.is_selected Simple.ServoController._time_ref
    Simple.ServoController.set__servo Simple.ServoController.set_angle
    Simple.ServoController.set_min_angle Simple.ServoController.set_max_angle
    Simple.ServoController.set__reversing
    Simple.ServoController.set_min_position_being_updated
    Simple.ServoController.set_max_position_being_updated
    Simple.ServoController.set__time_ref Simple.ServoController.move
    servo_pin servo_value].


(** Decide the test at the head of the value [H] describes; a branch
    that [prune] shows to be impossible is dropped at once. *)
Ltac decide_in H prune :=
  sc_simpl_in H;
  repeat (lazymatch type of H with
          | _ = (if ?c then _ else _) => destruct c
          end; try solve [exfalso; prune]; sc_simpl_in H; sc_simpl).

(** Run the chain of assignments on the right of [H : r = ...]. *)
Ltac exec_in H prune :=
  repeat (let x := fresh "self" in
          let Hx := fresh "Hself" in
          lazymatch type of H with
          | ?r = (let y := ?E in @?B y) =>
              apply (let_elim E B r) in H as (x & Hx & H)
          end;
          decide_in Hx prune; subst x);
  decide_in H prune.

(** Name the result of the call [t] and run it; [unfold_in H] opens the
    method in [H]. *)
Ltac exec_call t unfold_in prune :=
  let r := fresh "r" in
  let H := fresh "Hr" in
  remember t as r eqn:H; unfold_in H; exec_in H prune; subst r.

Ltac run_rich_inc_with prune :=
  match goal with
  | |- context [Rich.ServoController.increment_value ?s] =>
      exec_call (Rich.ServoController.increment_value s)
        ltac:(fun H => cbv beta delta [Rich.ServoController.increment_value] in H)
        prune
  end.

Ltac run_rich_dec_with prune :=
  match goal with
  | |- context [Rich.ServoController.decrement_value ?s] =>
      exec_call (Rich.ServoController.decrement_value s)
        ltac:(fun H => cbv beta delta [Rich.ServoController.decrement_value] in H)
        prune
  end.

Ltac run_simple_inc_with prune :=
  match goal with
  | |- context [Simple.ServoController.increment_value ?s] =>
      exec_call (Simple.ServoController.increment_value s)
        ltac:(fun H => cbv beta delta [Simple.ServoController.increment_value] in H)
        prune
  end.

Ltac run_simple_dec_with prune :=
  match goal with
  | |- context [Simple.ServoController.decrement_value ?s] =>
      exec_call (Simple.ServoController.decrement_value s)
        ltac:(fun H => cbv beta delta [Simple.ServoController.decrement_value] in H)
        prune
  end.

Ltac run_rich_inc := run_rich_inc_with fail.
Ltac run_rich_dec := run_rich_dec_with fail.
Ltac run_simple_inc := run_simple_inc_with fail.
Ltac run_simple_dec := run_simple_dec_with fail.

(** Linear arithmetic over the integers or over the rationals. *)
Ltac arith := first [lia | lra].

(** Decide the tests left in the goal, innermost first. *)
Ltac split_ifs prune :=
  sc_simpl;
  repeat (match goal with
          | |- context [if ?c then _ else _] =>
              lazymatch c with
              | context [if _ then _ else _] => fail
              | _ => destruct c
              end
          end; try solve [exfalso; prune]; sc_simpl).

(** * What one call does, attribute by attribute *)

Lemma rich_increment_value_eq (s : Rich.ServoController.t) :
  Rich.ServoController.increment_value s =
  let min1 :=
    if Rich.ServoController.min_position_being_updated s
    then (if decide (Rich.ServoController.min_angle s + 2 > 180)
          then 180 else Rich.ServoController.min_angle s + 2)
    else Rich.ServoController.min_angle s in
  let max1 :=
    if Rich.ServoController.max_position_being_updated s
    then (if decide (Rich.ServoController.max_angle s + 2 > 180)
          then 180 else Rich.ServoController.max_angle s + 2)
    else Rich.ServoController.max_angle s in
  let max2 := if decide (min1 > max1) then min1 else max1 in
  let speed1 :=
    if Rich.ServoController.speed_being_updated s
    then (if decide (Rich.ServoController.speed s + 2 > 150)
          then 150 else Rich.ServoController.speed s + 2)
    else Rich.ServoController.speed s in
  let angle1 :=
    if Rich.ServoController.position_being_updated s
    then (if Qgt_dec (Rich.ServoController.angle s + 2) 180
          then 180%Q else (Rich.ServoController.angle s + 2)%Q)
    else Rich.ServoController.angle s in
  Rich.ServoController.set_angle angle1
    (Rich.ServoController.set_speed speed1
       (Rich.ServoController.set_max_angle max2
          (Rich.ServoController.set_min_angle min1 s))).
Proof. destruct s. sc_simpl. run_rich_inc; reflexivity. Qed.

Lemma rich_decrement_value_eq (s : Rich.ServoController.t) :
  Rich.ServoController.decrement_value s =
  let min1 :=
    if Rich.ServoController.min_position_being_updated s
    then (if decide (Rich.ServoController.min_angle s - 2 < 0)
          then 0 else Rich.ServoController.min_angle s - 2)
    else Rich.ServoController.min_angle s in
  let max1 :=
    if Rich.ServoController.max_position_being_updated s
    then (if decide (Rich.ServoController.max_angle s - 2 < 0)
          then 0 else Rich.ServoController.max_angle s - 2)
    else Rich.ServoController.max_angle s in
  let min2 := if decide (max1 < min1) then max1 else min1 in
  let speed1 :=
    if Rich.ServoController.speed_being_updated s
    then (if decide (Rich.ServoController.speed s - 1 < 1)
          then 1 else Rich.ServoController.speed s - 1)
    else Rich.ServoController.speed s in
  let angle1 :=
    if Rich.ServoController.position_being_updated s
    then (if Qlt_dec (Rich.ServoController.angle s - 2) 0
          then 0%Q else (Rich.ServoController.angle s - 2)%Q)
    else Rich.ServoController.angle s in
  Rich.ServoController.set_angle angle1
    (Rich.ServoController.set_speed speed1
       (Rich.ServoController.set_min_angle min2
          (Rich.ServoController.set_max_angle max1 s))).
Proof. destruct s. sc_simpl. run_rich_dec; reflexivity. Qed.

Lemma simple_increment_value_eq (s : Simple.ServoController.t) :
  Simple.ServoController.increment_value s =
  let min0 :=
    if Simple.ServoController.min_position_being_updated s
    then Simple.ServoController.min_angle s + 1
    else Simple.ServoController.min_angle s in
  let min1 := if decide (min0 > 180) then 180 else min0 in
  let max0 :=
    if Simple.ServoController.max_position_being_updated s
    then Simple.ServoController.max_angle s + 1
    else Simple.ServoController.max_angle s in
  let max1 := if decide (max0 > 180) then 180 else max0 in
  let max2 := if decide (min1 > max1) then min1 else max1 in
  Simple.ServoController.set_max_angle max2
    (Simple.ServoController.set_min_angle min1 s).
Proof. destruct s. sc_simpl. run_simple_inc; reflexivity. Qed.

Lemma simple_decrement_value_eq (s : Simple.ServoController.t) :
  Simple.ServoController.decrement_value s =
  let min0 :=
    if Simple.ServoController.min_position_being_updated s
    then Simple.ServoController.min_angle s - 1
    else Simple.ServoController.min_angle s in
  let min1 := if decide (min0 < 0) then 0 else min0 in
  let max0 :=
    if Simple.ServoController.max_position_being_updated s
    then Simple.ServoController.max_angle s - 1
    else Simple.ServoController.max_angle s in
  let max1 := if decide (max0 < 0) then 0 else max0 in
  let min2 := if decide (max1 < min1) then max1 else min1 in
  Simple.ServoController.set_min_angle min2
    (Simple.ServoController.set_max_angle max1 s).
Proof. destruct s. sc_simpl. run_simple_dec; reflexivity. Qed.

(** * The bounds stay ordered *)

(** C1.  Whatever the state of a servo controller and whichever editing
    flags are set, after one call of [increment_value] or of
    [decrement_value] the lower bound is at most the upper bound, in the
    richer and in the simplified variant. *)
Theorem C1_bounds_ordered_after_step :
  (forall s : Rich.ServoController.t,
     Rich.ServoController.min_angle (Rich.ServoController.increment_value s)
     <= Rich.ServoController.max_angle (Rich.ServoController.increment_value s)
     /\ Rich.ServoController.min_angle (Rich.ServoController.decrement_value s)
        <= Rich.ServoController.max_angle (Rich.ServoController.decrement_value s))
  /\ (forall s : Simple.ServoController.t,
        Simple.ServoController.min_angle (Simple.ServoController.increment_value s)
        <= Simple.ServoController.max_angle (Simple.ServoController.increment_value s)
        /\ Simple.ServoController.min_angle (Simple.ServoController.decrement_value s)
           <= Simple.ServoController.max_angle (Simple.ServoController.decrement_value s)).
Proof.
  split; intros s; split.
  - rewrite rich_increment_value_eq. split_ifs fail; lia.
  - rewrite rich_decrement_value_eq. split_ifs fail; lia.
  - rewrite simple_increment_value_eq. split_ifs fail; lia.
  - rewrite simple_decrement_value_eq. split_ifs fail; lia.
Qed.

(** * [rescale] *)


(** * Run and stop *)

(** C9.  In the richer variant [toggle_run] flips [is_running], clears
    the four editing flags and leaves the angle, the speed and the two
    bounds as they were. *)
Theorem C9_toggle_run (s : Rich.ServoController.t) :
  let s' := Rich.ServoController.toggle_run s in
  Rich.ServoController.is_running s' = negb (Rich.ServoController.is_running s)
  /\ Rich.ServoController.min_position_being_updated s' = false
  /\ Rich.ServoController.max_position_being_updated s' = false
  /\ Rich.ServoController.position_being_updated s' = false
  /\ Rich.ServoController.speed_being_updated s' = false
  /\ Rich.ServoController.angle s' = Rich.ServoController.angle s
  /\ Rich.ServoController.speed s' = Rich.ServoController.speed s
  /\ Rich.ServoController.min_angle s' = Rich.ServoController.min_angle s
  /\ Rich.ServoController.max_angle s' = Rich.ServoController.max_angle s.
Proof. destruct s. cbn. repeat split. Qed.

(** C10.  In the richer variant [min_position_setting_toggle] and
    [max_position_setting_toggle] flip their flag; when the flag becomes
    true the servo is stopped, and when it becomes false [is_running] is
    left as it was (the sweep is not started again). *)
Theorem C10_selecting_a_bound_stops (s : Rich.ServoController.t) :
  let smin := Rich.ServoController.min_position_setting_toggle s in
  let smax := Rich.ServoController.max_position_setting_toggle s in
  Rich.ServoController.min_position_being_updated smin
  = negb (Rich.ServoController.min_position_being_updated s)
  /\ Rich.ServoController.is_running smin
     = (if Rich.ServoController.min_position_being_updated smin
        then false else Rich.ServoController.is_running s)
  /\ Rich.ServoController.max_position_being_updated smax
     = negb (Rich.ServoController.max_position_being_updated s)
  /\ Rich.ServoController.is_running smax
     = (if Rich.ServoController.max_position_being_updated smax
        then false else Rich.ServoController.is_running s).
Proof.
  destruct s as [? ? ? ? ? ? ? ? ? ? ? ? fmin fmax ? ? ? ? ?].
  destruct fmin, fmax; cbn; repeat split.
Qed.

(** * Selection flags *)

Lemma rich_toggle_selection_ok (k : Toggle) (s : Rich.ServoController.t) :
  rich_selection_ok s -> rich_selection_ok (rich_toggle k s).
Proof.
  unfold rich_selection_ok.
  destruct s as [? ? ? ? ? ? ? ? ? ? ? ? fmin fmax fpos fspd ? ? ?].
  destruct k, fmin, fmax, fpos, fspd; vm_compute; intros [H1 H2];
    first [ discriminate H2 | exfalso; lia | (split; [lia | reflexivity]) ].
Qed.

Lemma rich_toggles_selection_ok (ks : list Toggle) (s : Rich.ServoController.t) :
  rich_selection_ok s -> rich_selection_ok (rich_toggles ks s).
Proof.
  revert s. induction ks as [| k ks IH]; intros s Hs; [exact Hs |].
  cbn. apply IH, rich_toggle_selection_ok, Hs.
Qed.

Lemma simple_toggles_flags (ks : list bool) (s : Simple.ServoController.t) :
  Simple.ServoController.speed_being_updated s = false ->
  Simple.ServoController.position_being_updated s = false ->
  (count_true (simple_flags s) <= 1)%nat ->
  (count_true (simple_flags (simple_toggles ks s)) <= 1)%nat.
Proof.
  revert s. induction ks as [| k ks IH]; intros s Hspd Hpos Hs; [exact Hs |].
  cbn. destruct s as [? ? ? ? ? ? ? ? ? ? ? fmin fmax fpos fspd ? ?].
  cbn in Hspd, Hpos. subst fpos fspd.
  apply IH; destruct k, fmin, fmax; vm_compute in *; first [reflexivity | lia].
Qed.

(** C5, as the code has it.  From a servo with no editing flag set, any
    sequence of the five selection toggles of the richer variant leaves at
    most one of the flags for min, max and speed set, and never sets the
    flag for the position together with the one for the speed (the flag for
    the position is set together with the one for min or max by
    [position_and_min_setting_toggle] and [position_and_max_setting_toggle]).
    In the simplified variant, whose toggles are the two for min and max,
    at most one of the four flags is set. *)
Theorem C5_selection_after_toggles (ks : list Toggle) (ks' : list bool)
    (s : Rich.ServoController.t) (s' : Simple.ServoController.t) :
  rich_flags s = [false; false; false; false] ->
  simple_flags s' = [false; false; false; false] ->
  let r := rich_toggles ks s in
  (count_true [ Rich.ServoController.min_position_being_updated r;
                Rich.ServoController.max_position_being_updated r;
                Rich.ServoController.speed_being_updated r ] <= 1)%nat
  /\ Rich.ServoController.speed_being_updated r
     && Rich.ServoController.position_being_updated r = false
  /\ (count_true (simple_flags (simple_toggles ks' s')) <= 1)%nat.
Proof.
  intros Hs Hs' r.
  assert (Hr : rich_selection_ok r).
  { apply rich_toggles_selection_ok. unfold rich_selection_ok.
    unfold rich_flags in Hs. injection Hs as -> -> -> ->.
    split; [vm_compute; lia | reflexivity]. }
  destruct Hr as [H1 H2]. split; [exact H1 |]. split; [exact H2 |].
  unfold simple_flags in Hs'. injection Hs' as Hmin Hmax Hspd Hpos.
  apply simple_toggles_flags; [exact Hspd | exact Hpos |].
  unfold simple_flags. rewrite Hmin, Hmax, Hspd, Hpos. vm_compute. lia.
Qed.

Lemma C5_selection_after_toggles_witness :
  let r := rich_toggles [Position_and_min_setting_toggle; Speed_setting_toggle]
             rich_servo0 in
  (count_true [ Rich.ServoController.min_position_being_updated r;
                Rich.ServoController.max_position_being_updated r;
                Rich.ServoController.speed_being_updated r ] <= 1)%nat
  /\ Rich.ServoController.speed_being_updated r
     && Rich.ServoController.position_being_updated r = false
  /\ (count_true (simple_flags (simple_toggles [true; false] simple_servo0)) <= 1)%nat.
Proof.
  apply (C5_selection_after_toggles
           [Position_and_min_setting_toggle; Speed_setting_toggle] [true; false]
           rich_servo0 simple_servo0); reflexivity.
Defined.

(** C5 as stated fails: one call of [position_and_min_setting_toggle] on
    a servo with no flag set sets two flags, the one for min and the one
    for the position. *)
Lemma C5_counterexample :
  rich_flags rich_servo0 = [false; false; false; false]
  /\ ~ (count_true (rich_flags (rich_toggles [Position_and_min_setting_toggle]
                                  rich_servo0)) <= 1)%nat.
Proof. split; [reflexivity |]. vm_compute. lia. Qed.

(** * A step up, then a step down *)




Lemma rich_update_eq (ticks_diff : Z -> Z -> Z) (s : Rich.ServoController.t)
    (c : Clock) :
  Rich.ServoController.update ticks_diff s c =
  (let delta :=
     Rich.ServoController.angle_delta (Rich.ServoController.speed s)
       (ticks_diff (c 0%nat) (Rich.ServoController._time_ref s)) in
   let lo := Py.of_int (Rich.ServoController.min_angle s) in
   let hi := Py.of_int (Rich.ServoController.max_angle s) in
   let s1 := Rich.ServoController.set__time_ref (c 1%nat) s in
   Rich.ServoController.move
     (if Rich.ServoController.is_running s then
        if Rich.ServoController._reversing s then
          if Qlt_dec (Rich.ServoController.angle s - delta) lo
          then Rich.ServoController.set__reversing false
                 (Rich.ServoController.set_angle lo s1)
          else Rich.ServoController.set_angle
                 (Rich.ServoController.angle s - delta) s1
        else
          if Qgt_dec (Rich.ServoController.angle s + delta) hi
          then Rich.ServoController.set__reversing true
                 (Rich.ServoController.set_angle hi s1)
          else Rich.ServoController.set_angle
                 (Rich.ServoController.angle s + delta) s1
      else s1),
   fun i => c (S (S i))).
Proof.
  destruct s. sc_simpl.
  match goal with
  | |- ?t = _ =>
      exec_call t
        ltac:(fun H => cbv beta iota delta
                [Rich.ServoController.update mbind IO_bind ticks_ms mret IO_ret] in H)
        fail
  end; reflexivity.
Qed.

Lemma simple_update_eq (ticks_diff : Z -> Z -> Z) (s : Simple.ServoController.t)
    (c : Clock) :
  Simple.ServoController.update ticks_diff s c =
  (let delta :=
     Simple.ServoController.angle_delta (Simple.ServoController.speed s)
       (ticks_diff (c 0%nat) (Simple.ServoController._time_ref s)) in
   let lo := Py.of_int (Simple.ServoController.min_angle s) in
   let hi := Py.of_int (Simple.ServoController.max_angle s) in
   let s1 := Simple.ServoController.set__time_ref (c 1%nat) s in
   if Simple.ServoController._reversing s then
     if Qlt_dec (Simple.ServoController.angle s - delta) lo
     then Simple.ServoController.set__reversing false
            (Simple.ServoController.set_angle lo s1)
     else Simple.ServoController.set_angle
            (Simple.ServoController.angle s - delta) s1
   else
     if Qgt_dec (Simple.ServoController.angle s + delta) hi
     then Simple.ServoController.set__reversing true
            (Simple.ServoController.set_angle hi s1)
     else Simple.ServoController.set_angle
            (Simple.ServoController.angle s + delta) s1,
   fun i => c (S (S i))).
Proof.
  destruct s as [? ? ? ? ? ? ? ? ? ? rev ? ? ? ? ? ?]. sc_simpl.
  cbv beta iota zeta delta
    [Simple.ServoController.update mbind IO_bind ticks_ms mret IO_ret].
  sc_simpl. destruct rev; [destruct (Qlt_dec _ _) | destruct (Qgt_dec _ _)];
    reflexivity.
Qed.

(** * The sweep *)

Lemma angle_delta_nonneg (speed time_delta : Z) :
  0 <= speed -> 0 <= time_delta ->
  (0 <= Rich.ServoController.angle_delta speed time_delta)%Q.
Proof.
  intros Hs Ht. unfold Rich.ServoController.angle_delta, Py.of_int.
  apply Qle_shift_div_l; [reflexivity |]. rewrite Qmult_0_l.
  change 0%Q with (inject_Z 0). rewrite <- Zle_Qle. lia.
Qed.

Lemma angle_delta_pos (speed time_delta : Z) :
  0 < speed -> 0 < time_delta ->
  (0 < Rich.ServoController.angle_delta speed time_delta)%Q.
Proof.
  intros Hs Ht. unfold Rich.ServoController.angle_delta, Py.of_int.
  apply Qlt_shift_div_l; [reflexivity |]. rewrite Qmult_0_l.
  change 0%Q with (inject_Z 0). rewrite <- Zlt_Qlt. lia.
Qed.









(** * Arriving exactly at a bound *)

Lemma angle_delta_example : (Rich.ServoController.angle_delta 20 4500 == 90)%Q.
Proof. reflexivity. Qed.

Lemma rich_exact_arrival (ticks_diff : Z -> Z -> Z) (s : Rich.ServoController.t)
    (c : Clock) :
  rich_mid_sweep s ->
  ticks_diff (c 0%nat) (Rich.ServoController._time_ref s) = 4500 ->
  0 < ticks_diff (c 2%nat) (c 1%nat) ->
  let r1 := Rich.ServoController.update ticks_diff s c in
  let r2 := Rich.ServoController.update ticks_diff r1.1 r1.2 in
  (Rich.ServoController.angle r1.1 == 180)%Q
  /\ Rich.ServoController._reversing r1.1 = false
  /\ (Rich.ServoController.angle r2.1 == 180)%Q
  /\ Rich.ServoController._reversing r2.1 = true.
Proof.
  intros (Hmin & Hmax & Hspeed & Hangle & Hrev & Hrun) Hdt Hdt'.
  destruct s as [? a sp ? ? ? mn mx ? ? rev ? ? ? ? ? ? run tr].
  sc_simpl_in Hmin. sc_simpl_in Hmax. sc_simpl_in Hspeed. sc_simpl_in Hangle.
  sc_simpl_in Hrev. sc_simpl_in Hrun. sc_simpl_in Hdt. subst mn mx sp rev run.
  pose proof angle_delta_example as HD.
  pose proof (angle_delta_pos 20 _ ltac:(lia) Hdt') as HD'.
  cbv zeta. rewrite (rich_update_eq ticks_diff _ c). sc_simpl. rewrite Hdt.
  set (D := Rich.ServoController.angle_delta 20 4500) in *.
  destruct (Qgt_dec (a + D) (Py.of_int 180)) as [Hc | Hc];
    [exfalso; change (Py.of_int 180) with 180%Q in Hc; lra |].
  sc_simpl. rewrite rich_update_eq. sc_simpl.
  set (D' := Rich.ServoController.angle_delta 20 (ticks_diff (c 2%nat) (c 1%nat))) in *.
  destruct (Qgt_dec (a + D + D') (Py.of_int 180)) as [Hc' | Hc'];
    [| exfalso; change (Py.of_int 180) with 180%Q in Hc'; lra].
  sc_simpl. repeat split; try reflexivity. lra.
Qed.

Lemma simple_exact_arrival (ticks_diff : Z -> Z -> Z) (s : Simple.ServoController.t)
    (c : Clock) :
  simple_mid_sweep s ->
  ticks_diff (c 0%nat) (Simple.ServoController._time_ref s) = 4500 ->
  0 < ticks_diff (c 2%nat) (c 1%nat) ->
  let r1 := Simple.ServoController.update ticks_diff s c in
  let r2 := Simple.ServoController.update ticks_diff r1.1 r1.2 in
  (Simple.ServoController.angle r1.1 == 180)%Q
  /\ Simple.ServoController._reversing r1.1 = false
  /\ (Simple.ServoController.angle r2.1 == 180)%Q
  /\ Simple.ServoController._reversing r2.1 = true.
Proof.
  intros (Hmin & Hmax & Hspeed & Hangle & Hrev) Hdt Hdt'.
  destruct s as [? a sp ? ? ? mn mx ? ? rev ? ? ? ? ? tr].
  sc_simpl_in Hmin. sc_simpl_in Hmax. sc_simpl_in Hspeed. sc_simpl_in Hangle.
  sc_simpl_in Hrev. sc_simpl_in Hdt. subst mn mx sp rev.
  pose proof angle_delta_example as HD.
  pose proof (angle_delta_pos 20 _ ltac:(lia) Hdt') as HD'.
  cbv zeta. rewrite (simple_update_eq ticks_diff _ c). sc_simpl. rewrite Hdt.
  change (Simple.ServoController.angle_delta 20 4500)
    with (Rich.ServoController.angle_delta 20 4500).
  set (D := Rich.ServoController.angle_delta 20 4500) in *.
  destruct (Qgt_dec (a + D) (Py.of_int 180)) as [Hc | Hc];
    [exfalso; change (Py.of_int 180) with 180%Q in Hc; lra |].
  sc_simpl. rewrite simple_update_eq. sc_simpl.
  change (Simple.ServoController.angle_delta 20 (ticks_diff (c 2%nat) (c 1%nat)))
    with (Rich.ServoController.angle_delta 20 (ticks_diff (c 2%nat) (c 1%nat))).
  set (D' := Rich.ServoController.angle_delta 20 (ticks_diff (c 2%nat) (c 1%nat))) in *.
  destruct (Qgt_dec (a + D + D') (Py.of_int 180)) as [Hc' | Hc'];
    [| exfalso; change (Py.of_int 180) with 180%Q in Hc'; lra].
  sc_simpl. repeat split; try reflexivity. lra.
Qed.

(** C3, as the code has it.  With bounds 0 and 180, speed 20, angle 90
    and the sweep going forward, a call of [update] that measures 4500
    milliseconds computes an angular step of 90 and sets the angle to 180;
    the angle has reached the bound without passing it, so the direction
    is still forward.  The direction flips to reverse in the next call
    that measures a positive elapsed time, the angle staying at 180. *)
Theorem C3_exact_arrival_keeps_direction (ticks_diff : Z -> Z -> Z)
    (sr : Rich.ServoController.t) (cr : Clock)
    (ss : Simple.ServoController.t) (cs : Clock) :
  rich_mid_sweep sr ->
  ticks_diff (cr 0%nat) (Rich.ServoController._time_ref sr) = 4500 ->
  0 < ticks_diff (cr 2%nat) (cr 1%nat) ->
  simple_mid_sweep ss ->
  ticks_diff (cs 0%nat) (Simple.ServoController._time_ref ss) = 4500 ->
  0 < ticks_diff (cs 2%nat) (cs 1%nat) ->
  (Rich.ServoController.angle_delta 20 4500 == 90)%Q
  /\ (let r1 := Rich.ServoController.update ticks_diff sr cr in
      let r2 := Rich.ServoController.update ticks_diff r1.1 r1.2 in
      (Rich.ServoController.angle r1.1 == 180)%Q
      /\ Rich.ServoController._reversing r1.1 = false
      /\ (Rich.ServoController.angle r2.1 == 180)%Q
      /\ Rich.ServoController._reversing r2.1 = true)
  /\ (let r1 := Simple.ServoController.update ticks_diff ss cs in
      let r2 := Simple.ServoController.update ticks_diff r1.1 r1.2 in
      (Simple.ServoController.angle r1.1 == 180)%Q
      /\ Simple.ServoController._reversing r1.1 = false
      /\ (Simple.ServoController.angle r2.1 == 180)%Q
      /\ Simple.ServoController._reversing r2.1 = true).
Proof.
  intros Hr Hr1 Hr2 Hs Hs1 Hs2. split; [apply angle_delta_example |]. split.
  - apply rich_exact_arrival; assumption.
  - apply simple_exact_arrival; assumption.
Qed.

Lemma C3_exact_arrival_keeps_direction_witness :
  (Rich.ServoController.angle_delta 20 4500 == 90)%Q
  /\ (let r1 := Rich.ServoController.update Z.sub rich_servo_open
                  (clock_of [4500; 4500; 4520; 4520] 4520) in
      let r2 := Rich.ServoController.update Z.sub r1.1 r1.2 in
      (Rich.ServoController.angle r1.1 == 180)%Q
      /\ Rich.ServoController._reversing r1.1 = false
      /\ (Rich.ServoController.angle r2.1 == 180)%Q
      /\ Rich.ServoController._reversing r2.1 = true)
  /\ (let r1 := Simple.ServoController.update Z.sub simple_servo0
                  (clock_of [4500; 4500; 4520; 4520] 4520) in
      let r2 := Simple.ServoController.update Z.sub r1.1 r1.2 in
      (Simple.ServoController.angle r1.1 == 180)%Q
      /\ Simple.ServoController._reversing r1.1 = false
      /\ (Simple.ServoController.angle r2.1 == 180)%Q
      /\ Simple.ServoController._reversing r2.1 = true).
Proof.
  apply (C3_exact_arrival_keeps_direction Z.sub rich_servo_open
           (clock_of [4500; 4500; 4520; 4520] 4520) simple_servo0
           (clock_of [4500; 4500; 4520; 4520] 4520)).
  - repeat split.
  - reflexivity.
  - reflexivity.
  - repeat split.
  - reflexivity.
  - reflexivity.
Defined.

(** C3 as stated fails: in the state of the example, after 4500
    milliseconds, the angle is 180 and the direction has not flipped. *)
Lemma C3_counterexample :
  let s := rich_servo_open in
  let c := clock_of [4500; 4500] 4500 in
  rich_mid_sweep s
  /\ Z.sub (c 0%nat) (Rich.ServoController._time_ref s) = 4500
  /\ (Rich.ServoController.angle (Rich.ServoController.update Z.sub s c).1 == 180)%Q
  /\ Rich.ServoController._reversing (Rich.ServoController.update Z.sub s c).1 <> true.
Proof. repeat split. vm_compute. discriminate. Qed.

(** * The mode cycle *)

(** C6, as the code has it.  From the state [__main__] builds, three
    calls of [increment_state] bring the application back to state 0 with
    both servos in the small display, as at the start, and both running;
    at the start, before any press of the mode button, neither servo is
    running.  From then on three more calls give the same state of the
    application and of both servos again. *)
Theorem C6_three_mode_presses (c : Clock) :
  let init := (Rich.main_init c).1 in
  match rich_increment_states 3 init.1 init.2 with
  | Some (app3, store3) =>
      Rich.ApplicationController.application_state init.1 = 0
      /\ Rich.ApplicationController.application_state app3 = 0
      /\ map Rich.ServoController.display_mode init.2 = [0; 0]
      /\ map Rich.ServoController.display_mode store3 = [0; 0]
      /\ map Rich.ServoController.is_running init.2 = [false; false]
      /\ map Rich.ServoController.is_running store3 = [true; true]
      /\ rich_increment_states 3 app3 store3 = Some (app3, store3)
  | None => False
  end.
Proof. vm_compute. repeat split. Qed.

(** C6 as stated fails: after the three presses both servos are running,
    and at the start neither is. *)
Lemma C6_counterexample :
  let init := (Rich.main_init (clock_of [] 0)).1 in
  match rich_increment_states 3 init.1 init.2 with
  | Some (app3, store3) =>
      Rich.ApplicationController.application_state app3 = 0
      /\ map Rich.ServoController.is_running store3
         <> map Rich.ServoController.is_running init.2
  | None => False
  end.
Proof. vm_compute. split; [reflexivity | discriminate]. Qed.

(** * Debounce *)

Section Debounce.
Variable ticks_diff : Z -> Z -> Z.
Context {Target : Type}.

(** A pass over items none of which is the pressed button: nothing is
    dispatched and the clock is not read. *)
Lemma check_loop_not_bound (b : Button) (interval : Z)
    (items : list (Button * Target)) (last : Z) (c : Clock) :
  b ∉ items.*1 ->
  ButtonController.check_loop ticks_diff (only b) interval items last c
  = ((last, []), c).
Proof.
  induction items as [| [button target] rest IH]; intros Hb; [reflexivity |].
  cbn [ButtonController.check_loop]. rewrite fmap_cons in Hb.
  apply not_elem_of_cons in Hb as [Hne Hb]. cbn [fst] in Hne.
  unfold only at 1. rewrite bool_decide_eq_false_2 by congruence.
  apply IH, Hb.
Qed.

(** A pass over the items of a dictionary in which [b] is bound to
    [target], with only [b] held down. *)
Lemma check_loop_only (b : Button) (target : Target) (interval : Z)
    (items : list (Button * Target)) (last : Z) (c : Clock) :
  NoDup items.*1 -> (b, target) ∈ items ->
  ButtonController.check_loop ticks_diff (only b) interval items last c
  = if decide (ticks_diff (c 0%nat) last > interval)
    then ((c 1%nat, [target]), fun i => c (S (S i)))
    else ((last, []), fun i => c (S i)).
Proof.
  induction items as [| [button target'] rest IH]; intros Hnd Hin.
  - apply elem_of_nil in Hin. contradiction.
  - rewrite fmap_cons in Hnd. apply NoDup_cons in Hnd as [Hfresh Hnd].
    cbn [fst] in Hfresh. cbn [ButtonController.check_loop].
    apply elem_of_cons in Hin as [Heq | Hin].
    + injection Heq as <- <-.
      unfold only at 1. rewrite bool_decide_eq_true_2 by reflexivity.
      unfold mbind, IO_bind, ticks_ms, mret, IO_ret.
      destruct (decide (ticks_diff (c 0%nat) last > interval)).
      * rewrite check_loop_not_bound by exact Hfresh. reflexivity.
      * rewrite check_loop_not_bound by exact Hfresh. reflexivity.
    + assert (button <> b) as Hne.
      { intros ->. apply Hfresh. apply list_elem_of_fmap.
        exists (b, target). split; [reflexivity | exact Hin]. }
      unfold only at 1. rewrite bool_decide_eq_false_2 by exact Hne.
      apply IH; assumption.
Qed.

End Debounce.

(** C8, as the code has it.  Let a button be bound in the mapping of a
    button controller, and let two calls of [check] in a row each see that
    button, and no other, held down.  If the first press is dispatched (it
    is seen more than the debounce interval after the time the controller
    last recorded), the time recorded is the clock reading that follows,
    and the second press is dispatched exactly when it is seen more than
    the debounce interval after that time: the bound call is dispatched
    twice in that case and once otherwise. *)
Theorem C8_two_presses_of_one_button (ticks_diff : Z -> Z -> Z) {Target : Type}
    (mapping : list (Button * Target)) (b : Button) (target : Target)
    (interval last : Z) (c : Clock) :
  NoDup mapping.*1 ->
  (b, target) ∈ mapping ->
  ticks_diff (c 0%nat) last > interval ->
  let self := {| ButtonController._mapping := mapping;
                 ButtonController.debounce_interval := interval;
                 ButtonController._time_last_checked := last |} in
  let r1 := ButtonController.check ticks_diff (only b) self c in
  let r2 := ButtonController.check ticks_diff (only b) r1.1.1 r1.2 in
  r1.1.2 = [target]
  /\ ButtonController._time_last_checked r1.1.1 = c 1%nat
  /\ r1.1.2 ++ r2.1.2
     = if decide (ticks_diff (c 2%nat) (c 1%nat) > interval)
       then [target; target] else [target].
Proof.
  intros Hnd Hin Hfirst. cbv zeta.
  unfold ButtonController.check, mbind, IO_bind, mret, IO_ret.
  cbn [ButtonController._mapping ButtonController.debounce_interval
       ButtonController._time_last_checked].
  rewrite (check_loop_only ticks_diff b target interval mapping last c Hnd Hin).
  destruct (decide (ticks_diff (c 0%nat) last > interval)) as [_ | Hn];
    [| contradiction].
  cbn [fst snd ButtonController._mapping ButtonController.debounce_interval
       ButtonController._time_last_checked].
  rewrite (check_loop_only ticks_diff b target interval mapping _ _ Hnd Hin).
  destruct (decide (ticks_diff (c 2%nat) (c 1%nat) > interval));
    repeat split.
Qed.

Lemma C8_two_presses_of_one_button_witness :
  let target := {| Rich.object := Rich.servoD5;
                   Rich.method := "min_position_setting_toggle" |} in
  let c := clock_of [600; 601; 900] 900 in
  let self := {| ButtonController._mapping := Rich.button_mapping_main;
                 ButtonController.debounce_interval := 500;
                 ButtonController._time_last_checked := 0 |} in
  let r1 := ButtonController.check Z.sub (only BUTTON_A) self c in
  let r2 := ButtonController.check Z.sub (only BUTTON_A) r1.1.1 r1.2 in
  r1.1.2 = [target]
  /\ ButtonController._time_last_checked r1.1.1 = c 1%nat
  /\ r1.1.2 ++ r2.1.2
     = if decide (Z.sub (c 2%nat) (c 1%nat) > 500)
       then [target; target] else [target].
Proof.
  apply (C8_two_presses_of_one_button Z.sub Rich.button_mapping_main BUTTON_A
           {| Rich.object := Rich.servoD5;
              Rich.method := "min_position_setting_toggle" |}
           500 0 (clock_of [600; 601; 900] 900)).
  - apply (bool_decide_unpack _). vm_compute. exact I.
  - apply list_elem_of_here.
  - reflexivity.
Defined.

(** C8 as stated fails for a controller that was built, or has
    dispatched, less than the debounce interval ago.  A controller built
    when the clock reads 0, with a debounce interval of 500, sees the same
    button held down at 100 and again at 200, less than the interval
    apart, and dispatches nothing; it sees it at 100 and again at 700,
    more than the interval apart, and dispatches once. *)
Lemma C8_counterexample :
  ButtonController._time_last_checked buttons_at_0 = 0
  /\ (let r1 := ButtonController.check Z.sub (only BUTTON_A) buttons_at_0
                  (clock_of [100; 200] 200) in
      let r2 := ButtonController.check Z.sub (only BUTTON_A) r1.1.1 r1.2 in
      r1.1.2 ++ r2.1.2 = [])
  /\ (let r1 := ButtonController.check Z.sub (only BUTTON_A) buttons_at_0
                  (clock_of [100; 700; 700] 700) in
      let r2 := ButtonController.check Z.sub (only BUTTON_A) r1.1.1 r1.2 in
      r1.1.2 ++ r2.1.2
      = [ {| Rich.object := Rich.servoD5;
             Rich.method := "min_position_setting_toggle" |} ]).
Proof. repeat split. Qed.

(** * Further properties of the servo controllers *)

Ltac open_domains :=
  unfold rich_well_formed, simple_well_formed, between, Py.of_int, inject_Z in *.

Lemma rich_step_well_formed (s : Rich.ServoController.t) :
  rich_well_formed s ->
  rich_well_formed (Rich.ServoController.increment_value s)
  /\ rich_well_formed (Rich.ServoController.decrement_value s).
Proof.
  intros Hs. rewrite rich_increment_value_eq, rich_decrement_value_eq.
  destruct s. open_domains. sc_simpl_in Hs. sc_simpl.
  destruct Hs as (? & ? & ? & ? & ? & ? & ?).
  split; split_ifs fail; repeat split; arith.
Qed.

(** X1.  A step up or down keeps every attribute within its domain
    (richer variant): the bounds stay ordered within 0..180, the speed
    within 1..150 and the angle within 0..180, whichever flags are set. *)
Theorem rich_steps_keep_domains (s : Rich.ServoController.t) :
  rich_well_formed s ->
  rich_well_formed (Rich.ServoController.increment_value s)
  /\ rich_well_formed (Rich.ServoController.decrement_value s).
Proof. apply rich_step_well_formed. Qed.

Lemma rich_servo0_well_formed : rich_well_formed rich_servo0.
Proof. repeat split; vm_compute; discriminate. Qed.

Lemma rich_steps_keep_domains_witness :
  rich_well_formed (Rich.ServoController.increment_value rich_servo0)
  /\ rich_well_formed (Rich.ServoController.decrement_value rich_servo0).
Proof.
  apply (rich_steps_keep_domains rich_servo0).
  repeat split; vm_compute; discriminate.
Defined.

(** X2.  The simplified variant clamps the bounds whether or not a flag is
    set: from any state at all, a step up leaves both bounds at most 180
    and a step down leaves both at least 0. *)
Theorem simple_steps_clamp_bounds (s : Simple.ServoController.t) :
  Simple.ServoController.min_angle (Simple.ServoController.increment_value s) <= 180
  /\ Simple.ServoController.max_angle (Simple.ServoController.increment_value s) <= 180
  /\ 0 <= Simple.ServoController.min_angle (Simple.ServoController.decrement_value s)
  /\ 0 <= Simple.ServoController.max_angle (Simple.ServoController.decrement_value s).
Proof.
  rewrite simple_increment_value_eq, simple_decrement_value_eq.
  destruct s. sc_simpl. repeat split; split_ifs fail; lia.
Qed.

(** X3.  From bounds ordered within 0..180, a speed that is not negative
    and an angle within 0..180, a step up or down of the simplified variant
    keeps all of that. *)
Theorem simple_steps_keep_domains (s : Simple.ServoController.t) :
  simple_well_formed s ->
  simple_well_formed (Simple.ServoController.increment_value s)
  /\ simple_well_formed (Simple.ServoController.decrement_value s).
Proof.
  rewrite simple_increment_value_eq, simple_decrement_value_eq.
  destruct s. open_domains. sc_simpl.
  intros (? & ? & ? & ? & ? & ?).
  split; split_ifs fail; repeat split; arith.
Qed.

Lemma simple_steps_keep_domains_witness :
  simple_well_formed (Simple.ServoController.increment_value simple_servo0)
  /\ simple_well_formed (Simple.ServoController.decrement_value simple_servo0).
Proof.
  apply (simple_steps_keep_domains simple_servo0).
  repeat split; vm_compute; discriminate.
Defined.

Lemma rich_step_idle (s : Rich.ServoController.t) :
  rich_flags s = [false; false; false; false] ->
  Rich.ServoController.min_angle s <= Rich.ServoController.max_angle s ->
  Rich.ServoController.increment_value s = s
  /\ Rich.ServoController.decrement_value s = s.
Proof.
  rewrite rich_increment_value_eq, rich_decrement_value_eq.
  destruct s. unfold rich_flags. sc_simpl.
  intros Hf Hord. injection Hf as -> -> -> ->.
  split; split_ifs lia; reflexivity.
Qed.

(** X4.  With no editing flag set and the bounds in order, a turn of the
    encoder changes nothing: [increment_value] and [decrement_value] return
    the servo as it was (richer variant). *)
Theorem rich_step_without_selection (s : Rich.ServoController.t) :
  rich_flags s = [false; false; false; false] ->
  Rich.ServoController.min_angle s <= Rich.ServoController.max_angle s ->
  Rich.ServoController.increment_value s = s
  /\ Rich.ServoController.decrement_value s = s.
Proof. apply rich_step_idle. Qed.

Lemma rich_step_without_selection_witness :
  Rich.ServoController.increment_value rich_servo0 = rich_servo0
  /\ Rich.ServoController.decrement_value rich_servo0 = rich_servo0.
Proof.
  apply (rich_step_without_selection rich_servo0).
  - reflexivity.
  - vm_compute. discriminate.
Defined.

(** X5.  Without the bounds in order the same call is not a no-op: with no
    flag set, a lower bound above the upper bound is repaired by dragging
    the upper bound up (step up) or the lower bound down (step down). *)
Theorem rich_step_repairs_order (s : Rich.ServoController.t) :
  rich_flags s = [false; false; false; false] ->
  Rich.ServoController.min_angle s > Rich.ServoController.max_angle s ->
  Rich.ServoController.increment_value s
  = Rich.ServoController.set_max_angle (Rich.ServoController.min_angle s) s
  /\ Rich.ServoController.decrement_value s
     = Rich.ServoController.set_min_angle (Rich.ServoController.max_angle s) s.
Proof.
  rewrite rich_increment_value_eq, rich_decrement_value_eq.
  destruct s. unfold rich_flags. sc_simpl.
  intros Hf Hord. injection Hf as -> -> -> ->.
  split; split_ifs lia; reflexivity.
Qed.

Lemma rich_step_repairs_order_witness :
  let s := Rich.ServoController.set_min_angle 120 rich_servo0 in
  Rich.ServoController.increment_value s
  = Rich.ServoController.set_max_angle (Rich.ServoController.min_angle s) s
  /\ Rich.ServoController.decrement_value s
     = Rich.ServoController.set_min_angle (Rich.ServoController.max_angle s) s.
Proof.
  apply (rich_step_repairs_order (Rich.ServoController.set_min_angle 120 rich_servo0)).
  - reflexivity.
  - reflexivity.
Defined.

(** ** [int] of a rational *)

Lemma int_nonneg (q : Q) : (0 <= q)%Q -> Py.int q = Qfloor q.
Proof.
  destruct q as [n d]. unfold Py.int, Qfloor, Qle. cbn. intros H.
  apply Z.quot_div_nonneg; lia.
Qed.

Lemma int_nonpos (q : Q) : (q <= 0)%Q -> Py.int q = Qceiling q.
Proof.
  destruct q as [n d]. unfold Py.int, Qceiling, Qfloor, Qle. cbn. intros H.
  rewrite <- (Z.opp_involutive n) at 1. rewrite Z.quot_opp_l by lia.
  f_equal. apply Z.quot_div_nonneg; lia.
Qed.

(** [int] keeps a number between two integers that have zero between
    them, or that are both on the same side of zero. *)
Lemma int_between (lo hi : Z) (q : Q) :
  between lo hi q -> lo <= Py.int q <= hi.
Proof.
  unfold between, Py.of_int. intros [Hlo Hhi].
  destruct (Qlt_le_dec q 0) as [Hneg | Hpos].
  - rewrite int_nonpos by lra. split.
    + rewrite <- (Qceiling_Z lo). apply Qceiling_resp_le, Hlo.
    + rewrite <- (Qceiling_Z hi). apply Qceiling_resp_le, Hhi.
  - rewrite int_nonneg by exact Hpos. split.
    + rewrite <- (Qfloor_Z lo). apply Qfloor_resp_le, Hlo.
    + rewrite <- (Qfloor_Z hi). apply Qfloor_resp_le, Hhi.
Qed.

Lemma between_shift (q : Q) : between 0 180 q -> between (-90) 90 (q - 90)%Q.
Proof. unfold between, Py.of_int, inject_Z. intros [? ?]. split; lra. Qed.



(** [int] truncates towards zero: the angle 89.5 degrees, half a degree
    below the middle, is sent to the servo driver as 0, not as -1. *)
Example move_truncates_towards_zero :
  servo_value (Rich.ServoController._servo
                 (Rich.ServoController.move
                    (Rich.ServoController.set_angle (179 # 2) rich_servo0)))
  = Some 0.
Proof. reflexivity. Qed.



(** ** Every call keeps the domains *)

Lemma between_of_int (lo hi z : Z) : lo <= z <= hi -> between lo hi (Py.of_int z).
Proof.
  unfold between, Py.of_int. intros [? ?]. rewrite <- !Zle_Qle. lia.
Qed.

Lemma rich_toggle_well_formed (k : Toggle) (s : Rich.ServoController.t) :
  rich_well_formed s -> rich_well_formed (rich_toggle k s).
Proof.
  intros (H1 & H2 & H3 & H4 & H5 & H6).
  assert (Hmin : between 0 180 (Py.of_int (Rich.ServoController.min_angle s)))
    by (apply between_of_int; lia).
  assert (Hmax : between 0 180 (Py.of_int (Rich.ServoController.max_angle s)))
    by (apply between_of_int; lia).
  destruct s as [? ? ? ? ? ? ? ? ? ? ? ? fmin fmax fpos fspd ? ? ?].
  unfold rich_well_formed. sc_simpl_in H1. sc_simpl_in H2. sc_simpl_in H3.
  sc_simpl_in H4. sc_simpl_in H5. sc_simpl_in H6. sc_simpl_in Hmin.
  sc_simpl_in Hmax.
  destruct k, fmin, fmax, fpos, fspd;
    unfold rich_toggle, Rich.ServoController.min_position_setting_toggle,
      Rich.ServoController.max_position_setting_toggle,
      Rich.ServoController.position_and_min_setting_toggle,
      Rich.ServoController.position_and_max_setting_toggle,
      Rich.ServoController.speed_setting_toggle;
    sc_simpl; repeat split;
    first [assumption | apply H6 | apply Hmin | apply Hmax].
Qed.

Lemma rich_toggle_servo (k : Toggle) (s : Rich.ServoController.t) :
  Rich.ServoController._servo (rich_toggle k s) = Rich.ServoController._servo s.
Proof.
  destruct s as [? ? ? ? ? ? ? ? ? ? ? ? fmin fmax fpos fspd ? ? ?].
  destruct k, fmin, fmax, fpos, fspd; reflexivity.
Qed.

Lemma rich_update_well_formed (ticks_diff : Z -> Z -> Z)
    (s : Rich.ServoController.t) (c : Clock) :
  rich_well_formed s ->
  0 <= ticks_diff (c 0%nat) (Rich.ServoController._time_ref s) ->
  rich_well_formed (Rich.ServoController.update ticks_diff s c).1
  /\ servo_in_range
       (Rich.ServoController._servo (Rich.ServoController.update ticks_diff s c).1).
Proof.
  intros Hs Hdt.
  assert (Hwf : rich_well_formed (Rich.ServoController.update ticks_diff s c).1).
  { destruct Hs as (H1 & H2 & H3 & H4 & H5 & H6).
    pose proof (angle_delta_nonneg (Rich.ServoController.speed s) _
                  ltac:(lia) Hdt) as Hdelta.
    rewrite rich_update_eq. destruct s as [? a sp ? ? ? mn mx ? ? rev ? ? ? ? ? ? run tr].
    unfold rich_well_formed, between in *.
    change (Py.of_int 0) with 0%Q in *. change (Py.of_int 180) with 180%Q in *.
    sc_simpl. sc_simpl_in H1. sc_simpl_in H2. sc_simpl_in H3. sc_simpl_in H4.
    sc_simpl_in H5. sc_simpl_in H6. sc_simpl_in Hdelta.
    set (delta := Rich.ServoController.angle_delta sp (ticks_diff (c 0%nat) tr)) in *.
    assert (0 <= Py.of_int mn)%Q by (apply (between_of_int 0 180); lia).
    assert (Py.of_int mx <= 180)%Q by (apply (between_of_int 0 180 mx); lia).
    assert (Py.of_int mn <= Py.of_int mx)%Q
      by (unfold Py.of_int; rewrite <- Zle_Qle; lia).
    destruct H6.
    destruct run, rev; sc_simpl;
      try destruct (Qlt_dec _ _); try destruct (Qgt_dec _ _);
      sc_simpl; repeat split; first [assumption | lra]. }
  split; [exact Hwf |].
  assert (Hmove : exists s', (Rich.ServoController.update ticks_diff s c).1
                             = Rich.ServoController.move s').
  { rewrite rich_update_eq. eexists. reflexivity. }
  destruct Hmove as [s' Hs']. rewrite Hs' in *.
  destruct Hwf as (_ & _ & _ & _ & _ & Ha).
  unfold servo_in_range. destruct s'. sc_simpl. sc_simpl_in Ha.
  apply int_between, between_shift, Ha.
Qed.

Lemma rich_call_well_formed (ticks_diff : Z -> Z -> Z) (k : Call)
    (s : Rich.ServoController.t) (c : Clock) :
  rich_well_formed s ->
  servo_in_range (Rich.ServoController._servo s) ->
  (k = CUpdate -> 0 <= ticks_diff (c 0%nat) (Rich.ServoController._time_ref s)) ->
  rich_well_formed (rich_call ticks_diff k s c).1
  /\ servo_in_range (Rich.ServoController._servo (rich_call ticks_diff k s c).1).
Proof.
  intros Hs Hservo Hdt. destruct k; cbn [rich_call].
  - split; [apply rich_toggle_well_formed, Hs |].
    cbn. rewrite rich_toggle_servo. exact Hservo.
  - destruct s; split; [exact Hs | exact Hservo].
  - destruct s; split; [exact Hs | exact Hservo].
  - destruct s; split; [exact Hs | exact Hservo].
  - destruct s; split; [exact Hs | exact Hservo].
  - destruct s; split; [exact Hs | exact Hservo].
  - split; [apply rich_step_well_formed, Hs |].
    cbn. rewrite rich_increment_value_eq. destruct s; exact Hservo.
  - split; [apply rich_step_well_formed, Hs |].
    cbn. rewrite rich_decrement_value_eq. destruct s; exact Hservo.
  - split; [destruct s; exact Hs |].
    destruct Hs as (_ & _ & _ & _ & _ & Ha).
    unfold servo_in_range. destruct s. cbn. sc_simpl. sc_simpl_in Ha.
    apply int_between, between_shift, Ha.
  - apply rich_update_well_formed; auto.
Qed.

(** X8.  Whatever the buttons, the encoder, the mode button and the main loop
    do to a servo of the richer variant, in whatever order, its attributes
    stay within their domains and the servo driver is never given a value
    outside -90..90: from bounds ordered within 0..180, a speed within
    1..150 and an angle within 0..180, any sequence of calls of the
    toggles, of [toggle_run], [run], [stop], [display_small],
    [display_full], [increment_value], [decrement_value], [move] and
    [update] keeps all of that, provided only that no [update] measures a
    negative elapsed time. *)
Theorem rich_calls_keep_domains (ticks_diff : Z -> Z -> Z) (ks : list Call) :
  forall (s : Rich.ServoController.t) (c : Clock),
  rich_well_formed s ->
  servo_in_range (Rich.ServoController._servo s) ->
  updates_elapsed_nonneg ticks_diff ks s c ->
  rich_well_formed (rich_calls ticks_diff ks s c).1
  /\ servo_in_range (Rich.ServoController._servo (rich_calls ticks_diff ks s c).1).
Proof.
  induction ks as [| k ks IH]; intros s c Hs Hservo He.
  - split; assumption.
  - cbn [updates_elapsed_nonneg] in He. destruct He as [Hdt He].
    destruct (rich_call_well_formed ticks_diff k s c Hs Hservo Hdt) as [Hs' Hservo'].
    cbn [rich_calls]. unfold mbind, IO_bind.
    destruct (rich_call ticks_diff k s c) as [s' c'].
    apply IH; assumption.
Qed.

Lemma rich_calls_keep_domains_witness :
  let ks := [CToggle Position_and_max_setting_toggle; CIncrement; CRun;
             CUpdate; CToggleRun; CUpdate] in
  let c := clock_of [100; 100; 250; 250] 250 in
  rich_well_formed (rich_calls Z.sub ks rich_servo0 c).1
  /\ servo_in_range (Rich.ServoController._servo (rich_calls Z.sub ks rich_servo0 c).1).
Proof.
  apply (rich_calls_keep_domains Z.sub
           [CToggle Position_and_max_setting_toggle; CIncrement; CRun;
            CUpdate; CToggleRun; CUpdate]
           rich_servo0 (clock_of [100; 100; 250; 250] 250)).
  - repeat split; vm_compute; discriminate.
  - exact I.
  - repeat split; try discriminate; intros _; vm_compute; discriminate.
Defined.

(** ** [rescale] on the scale of the display *)

(** The value of [rescale], total. *)
Lemma rescale_value (x in_min in_max out_min out_max : Q) :
  rescale x in_min in_max out_min out_max
  = Some (if Qeq_dec (in_max - in_min) 0 then out_min
          else Py.of_int (Py.int ((x - in_min) * (out_max - out_min)
                                  / (in_max - in_min) + out_min)%Q)).
Proof.
  unfold rescale, Py.truediv.
  destruct (Qeq_dec (in_max - in_min) 0) as [Heq | Hne]; [reflexivity |].
  destruct (Qeq_dec (in_max - in_min) 0) as [Heq | _]; [contradiction |].
  reflexivity.
Qed.

Lemma int_monotone (p q : Q) : (p <= q)%Q -> Py.int p <= Py.int q.
Proof.
  intros Hpq. destruct (Qlt_le_dec q 0) as [Hq | Hq].
  - rewrite !int_nonpos by lra. apply Qceiling_resp_le, Hpq.
  - destruct (Qlt_le_dec p 0) as [Hp | Hp].
    + rewrite (int_nonpos p) by lra. rewrite (int_nonneg q) by exact Hq.
      transitivity 0.
      * change 0 with (Qceiling 0). apply Qceiling_resp_le. lra.
      * change 0 with (Qfloor 0). apply Qfloor_resp_le, Hq.
    + rewrite !int_nonneg by assumption. apply Qfloor_resp_le, Hpq.
Qed.

Lemma scale_line_affine (x : Q) :
  ((x - 0) * (140 + 50 - 50) / (180 - 0) + 50 == x * (7 # 9) + 50)%Q.
Proof. field. Qed.

(** X9.  The place on the scale line that [draw] computes for an angle,
    [rescale(angle, 0, 180, 50, 140 + 50)], is always defined, is a whole
    number within 50..190 when the angle is within 0..180, and does not
    move left when the angle grows: the tick mark of the lower bound is
    never to the right of the tick mark of the upper bound. *)
Theorem rescale_on_scale_line (x y : Q) :
  between 0 180 x -> between 0 180 y -> (x <= y)%Q ->
  exists vx vy : Z,
    rescale x 0 180 50 (140 + 50) = Some (Py.of_int vx)
    /\ rescale y 0 180 50 (140 + 50) = Some (Py.of_int vy)
    /\ 50 <= vx /\ vx <= vy /\ vy <= 190.
Proof.
  unfold between. change (Py.of_int 0) with 0%Q. change (Py.of_int 180) with 180%Q.
  intros [Hx0 Hx1] [Hy0 Hy1] Hxy.
  rewrite !rescale_value.
  destruct (Qeq_dec (180 - 0) 0) as [Heq | _]; [discriminate Heq |].
  eexists. eexists. split; [reflexivity |]. split; [reflexivity |].
  split; [| split].
  - apply (int_between 50 190). unfold between.
    change (Py.of_int 50) with 50%Q. change (Py.of_int 190) with 190%Q.
    rewrite scale_line_affine. split; lra.
  - apply int_monotone. rewrite !scale_line_affine. lra.
  - apply (int_between 50 190). unfold between.
    change (Py.of_int 50) with 50%Q. change (Py.of_int 190) with 190%Q.
    rewrite scale_line_affine. split; lra.
Qed.

Lemma rescale_on_scale_line_witness :
  exists vx vy : Z,
    rescale 30 0 180 50 (140 + 50) = Some (Py.of_int vx)
    /\ rescale 90 0 180 50 (140 + 50) = Some (Py.of_int vy)
    /\ 50 <= vx /\ vx <= vy /\ vy <= 190.
Proof.
  apply (rescale_on_scale_line 30 90).
  - split; vm_compute; discriminate.
  - split; vm_compute; discriminate.
  - vm_compute. discriminate.
Defined.

(** ** The arm follows the bound being edited *)

Lemma follow_up (a : Q) (m : Z) :
  (a == Py.of_int m)%Q ->
  ((if Qgt_dec (a + 2) 180 then 180 else a + 2)
   == Py.of_int (if decide (m + 2 > 180)%Z then 180%Z else (m + 2)%Z))%Q.
Proof.
  unfold Py.of_int. intros Ha.
  destruct (Qgt_dec (a + 2) 180) as [Hq | Hq];
    destruct (decide (m + 2 > 180)) as [Hz | Hz]; try reflexivity.
  - exfalso. apply Hz. rewrite Ha in Hq.
    change 2%Q with (inject_Z 2) in Hq. change 180%Q with (inject_Z 180) in Hq.
    rewrite <- inject_Z_plus, <- Zlt_Qlt in Hq. lia.
  - exfalso. rewrite Ha in Hq.
    change 2%Q with (inject_Z 2) in Hq. change 180%Q with (inject_Z 180) in Hq.
    rewrite <- inject_Z_plus, <- Zle_Qle in Hq. lia.
  - rewrite Ha, inject_Z_plus. reflexivity.
Qed.

Lemma follow_down (a : Q) (m : Z) :
  (a == Py.of_int m)%Q ->
  ((if Qlt_dec (a - 2) 0 then 0 else a - 2)
   == Py.of_int (if decide (m - 2 < 0)%Z then 0%Z else (m - 2)%Z))%Q.
Proof.
  unfold Py.of_int. intros Ha.
  assert (Hm : (a - 2 == inject_Z (m - 2))%Q).
  { rewrite Ha. unfold Z.sub. rewrite inject_Z_plus. reflexivity. }
  destruct (Qlt_dec (a - 2) 0) as [Hq | Hq];
    destruct (decide (m - 2 < 0)) as [Hz | Hz]; try reflexivity.
  - exfalso. apply Hz. rewrite Hm in Hq. change 0%Q with (inject_Z 0) in Hq.
    rewrite <- Zlt_Qlt in Hq. exact Hq.
  - exfalso. rewrite Hm in Hq. change 0%Q with (inject_Z 0) in Hq.
    rewrite <- Zle_Qle in Hq. lia.
  - exact Hm.
Qed.

Lemma rich_step_previewing_min (up : bool) (s : Rich.ServoController.t) :
  rich_well_formed s -> rich_previewing_min s ->
  rich_previewing_min
    (if up then Rich.ServoController.increment_value s
     else Rich.ServoController.decrement_value s).
Proof.
  intros (H1 & H2 & H3 & _) [Hf Ha].
  destruct s as [? a ? ? ? ? mn mx ? ? ? ? fmin fmax fpos fspd ? ? ?].
  unfold rich_previewing_min, rich_flags in *. sc_simpl_in Hf. sc_simpl_in Ha.
  sc_simpl_in H1. sc_simpl_in H2. sc_simpl_in H3.
  injection Hf as -> -> -> ->.
  destruct up.
  - rewrite rich_increment_value_eq. sc_simpl. split; [reflexivity |].
    apply follow_up, Ha.
  - rewrite rich_decrement_value_eq. sc_simpl. split; [reflexivity |].
    destruct (decide (mx < (if decide (mn - 2 < 0) then 0 else mn - 2)))
      as [Hd | Hd].
    + exfalso. destruct (decide (mn - 2 < 0)); lia.
    + apply follow_down, Ha.
Qed.

Lemma rich_step_previewing_max (up : bool) (s : Rich.ServoController.t) :
  rich_well_formed s -> rich_previewing_max s ->
  rich_previewing_max
    (if up then Rich.ServoController.increment_value s
     else Rich.ServoController.decrement_value s).
Proof.
  intros (H1 & H2 & H3 & _) [Hf Ha].
  destruct s as [? a ? ? ? ? mn mx ? ? ? ? fmin fmax fpos fspd ? ? ?].
  unfold rich_previewing_max, rich_flags in *. sc_simpl_in Hf. sc_simpl_in Ha.
  sc_simpl_in H1. sc_simpl_in H2. sc_simpl_in H3.
  injection Hf as -> -> -> ->.
  destruct up.
  - rewrite rich_increment_value_eq. sc_simpl. split; [reflexivity |].
    destruct (decide (mn > (if decide (mx + 2 > 180) then 180 else mx + 2)))
      as [Hd | Hd].
    + exfalso. destruct (decide (mx + 2 > 180)); lia.
    + apply follow_up, Ha.
  - rewrite rich_decrement_value_eq. sc_simpl. split; [reflexivity |].
    apply follow_down, Ha.
Qed.

(** X10.  On a detail screen, selecting a bound with
    [position_and_min_setting_toggle] or [position_and_max_setting_toggle]
    puts the arm at that bound, and every turn of the encoder after that
    moves the bound and the arm together: after any sequence of calls of
    [increment_value] and [decrement_value] the angle is still the bound
    being edited. *)
Theorem rich_arm_follows_selected_bound (ks : list bool)
    (s : Rich.ServoController.t) :
  rich_well_formed s ->
  rich_flags s = [false; false; false; false] ->
  let smin := rich_steps ks (Rich.ServoController.position_and_min_setting_toggle s) in
  let smax := rich_steps ks (Rich.ServoController.position_and_max_setting_toggle s) in
  (Rich.ServoController.angle smin == Py.of_int (Rich.ServoController.min_angle smin))%Q
  /\ (Rich.ServoController.angle smax == Py.of_int (Rich.ServoController.max_angle smax))%Q.
Proof.
  intros Hs Hf.
  assert (Hmin : rich_well_formed (Rich.ServoController.position_and_min_setting_toggle s)
                 /\ rich_previewing_min (Rich.ServoController.position_and_min_setting_toggle s)).
  { split; [apply (rich_toggle_well_formed Position_and_min_setting_toggle), Hs |].
    destruct s. unfold rich_flags in Hf. sc_simpl_in Hf.
    injection Hf as -> -> -> ->. split; reflexivity. }
  assert (Hmax : rich_well_formed (Rich.ServoController.position_and_max_setting_toggle s)
                 /\ rich_previewing_max (Rich.ServoController.position_and_max_setting_toggle s)).
  { split; [apply (rich_toggle_well_formed Position_and_max_setting_toggle), Hs |].
    destruct s. unfold rich_flags in Hf. sc_simpl_in Hf.
    injection Hf as -> -> -> ->. split; reflexivity. }
  clear Hs Hf. cbv zeta.
  generalize dependent (Rich.ServoController.position_and_max_setting_toggle s).
  generalize dependent (Rich.ServoController.position_and_min_setting_toggle s).
  clear s. induction ks as [| up ks IH]; intros s1 [Hw1 Hp1] s2 [Hw2 Hp2].
  - split; [apply Hp1 | apply Hp2].
  - cbn [rich_steps foldl]. apply IH; split.
    + destruct up; apply rich_step_well_formed, Hw1.
    + apply rich_step_previewing_min; assumption.
    + destruct up; apply rich_step_well_formed, Hw2.
    + apply rich_step_previewing_max; assumption.
Qed.

Lemma rich_arm_follows_selected_bound_witness :
  let smin := rich_steps [true; true; false]
                (Rich.ServoController.position_and_min_setting_toggle rich_servo0) in
  let smax := rich_steps [true; true; false]
                (Rich.ServoController.position_and_max_setting_toggle rich_servo0) in
  (Rich.ServoController.angle smin == Py.of_int (Rich.ServoController.min_angle smin))%Q
  /\ (Rich.ServoController.angle smax == Py.of_int (Rich.ServoController.max_angle smax))%Q.
Proof.
  apply (rich_arm_follows_selected_bound [true; true; false] rich_servo0).
  - repeat split; vm_compute; discriminate.
  - reflexivity.
Defined.

(** * Further properties of the button controllers *)

Section Buttons.
Variable ticks_diff : Z -> Z -> Z.
Context {Target : Type}.

Lemma check_calls (is_pressed : Button -> bool)
    (self : ButtonController.t Target) (c : Clock) :
  (ButtonController.check ticks_diff is_pressed self c).1.2
  = (ButtonController.check_loop ticks_diff is_pressed
       (ButtonController.debounce_interval self) (ButtonController._mapping self)
       (ButtonController._time_last_checked self) c).1.2.
Proof.
  unfold ButtonController.check, mbind, IO_bind, mret, IO_ret.
  destruct (ButtonController.check_loop _ _ _ _ _ _) as [[last' calls] c'].
  reflexivity.
Qed.

Lemma check_loop_sublist (is_pressed : Button -> bool) (interval : Z)
    (items : list (Button * Target)) :
  forall (last : Z) (c : Clock),
  (ButtonController.check_loop ticks_diff is_pressed interval items last c).1.2
  `sublist_of`
  (filter (fun item : Button * Target => is_pressed item.1 = true) items).*2.
Proof.
  induction items as [| [button target] rest IH]; intros last c.
  - cbn. constructor.
  - cbn [ButtonController.check_loop].
    destruct (is_pressed button) eqn:Hp.
    + rewrite filter_cons_True by exact Hp. rewrite fmap_cons. cbn [snd].
      unfold mbind, IO_bind, ticks_ms, mret, IO_ret.
      destruct (decide (ticks_diff (c 0%nat) last > interval)).
      * specialize (IH (c 1%nat) (fun n => c (S (S n)))).
        destruct (ButtonController.check_loop ticks_diff is_pressed interval rest
                    (c 1%nat) (fun n => c (S (S n)))) as [[last' calls] c'].
        cbn in *. apply sublist_skip, IH.
      * apply sublist_cons, IH.
    + rewrite filter_cons_False by (cbn; rewrite Hp; discriminate).
      apply IH.
Qed.

(** X11.  [check] dispatches only calls bound to buttons that are held down,
    each at most once and in the order of the mapping: the calls
    dispatched are a sublist of the calls bound to the pressed buttons. *)
Theorem check_dispatches_pressed_only (is_pressed : Button -> bool)
    (self : ButtonController.t Target) (c : Clock) :
  (ButtonController.check ticks_diff is_pressed self c).1.2
  `sublist_of`
  (filter (fun item : Button * Target => is_pressed item.1 = true)
          (ButtonController._mapping self)).*2.
Proof. rewrite check_calls. apply check_loop_sublist. Qed.

(** X12.  With no button held down [check] does nothing at all: no call is
    dispatched, the controller is as it was and the clock has not been
    read. *)
Theorem check_without_press (is_pressed : Button -> bool)
    (self : ButtonController.t Target) (c : Clock) :
  (forall b, is_pressed b = false) ->
  ButtonController.check ticks_diff is_pressed self c = ((self, []), c).
Proof.
  intros Hnone. unfold ButtonController.check, mbind, IO_bind, mret, IO_ret.
  assert (Hloop : forall (items : list (Button * Target)) last,
             ButtonController.check_loop ticks_diff is_pressed
               (ButtonController.debounce_interval self) items last c
             = ((last, []), c)).
  { induction items as [| [button target] rest IH]; intros last; [reflexivity |].
    cbn [ButtonController.check_loop]. rewrite Hnone. apply IH. }
  rewrite Hloop. destruct self. reflexivity.
Qed.

(** Once a pass has recorded a time that no later clock reading is more
    than the interval away from, it dispatches nothing more. *)
Lemma check_loop_quiet (is_pressed : Button -> bool) (interval : Z)
    (items : list (Button * Target)) (last : Z) :
  forall c : Clock,
  (forall j, ticks_diff (c j) last <= interval) ->
  (ButtonController.check_loop ticks_diff is_pressed interval items last c).1
  = (last, []).
Proof.
  induction items as [| [button target] rest IH]; intros c Hc; [reflexivity |].
  cbn [ButtonController.check_loop]. destruct (is_pressed button).
  - unfold mbind, IO_bind, ticks_ms, mret, IO_ret.
    destruct (decide (ticks_diff (c 0%nat) last > interval)) as [Hd | Hd].
    + specialize (Hc 0%nat). lia.
    + apply IH. intros j. apply Hc.
  - apply IH, Hc.
Qed.

Lemma check_loop_at_most_one (is_pressed : Button -> bool) (interval : Z)
    (items : list (Button * Target)) :
  forall (last : Z) (c : Clock),
  (forall i j, (i < j)%nat -> ticks_diff (c j) (c i) <= interval) ->
  (length (ButtonController.check_loop ticks_diff is_pressed interval items
             last c).1.2 <= 1)%nat.
Proof.
  induction items as [| [button target] rest IH]; intros last c Hc.
  - cbn. lia.
  - cbn [ButtonController.check_loop]. destruct (is_pressed button).
    + unfold mbind, IO_bind, ticks_ms, mret, IO_ret.
      destruct (decide (ticks_diff (c 0%nat) last > interval)).
      * pose proof (check_loop_quiet is_pressed interval rest (c 1%nat)
                      (fun n => c (S (S n)))) as Hq.
        destruct (ButtonController.check_loop ticks_diff is_pressed interval rest
                    (c 1%nat) (fun n => c (S (S n)))) as [[last' calls] c'].
        cbn in *.
        assert (Hq' : (last', calls) = (c 1%nat, []))
          by (apply Hq; intros j; apply Hc; lia).
        injection Hq' as _ ->. cbn. lia.
      * apply IH. intros i j Hij. apply Hc. lia.
    + apply IH, Hc.
Qed.

(** X13.  The debounce timer is one for all the buttons of a controller: if
    the clock moves by no more than the debounce interval while [check]
    runs, then [check] dispatches at most one call, however many buttons
    are held down. *)
Theorem check_dispatches_at_most_one (is_pressed : Button -> bool)
    (self : ButtonController.t Target) (c : Clock) :
  (forall i j, (i < j)%nat ->
     ticks_diff (c j) (c i) <= ButtonController.debounce_interval self) ->
  (length (ButtonController.check ticks_diff is_pressed self c).1.2 <= 1)%nat.
Proof. intros Hc. rewrite check_calls. apply check_loop_at_most_one, Hc. Qed.

End Buttons.

Lemma check_without_press_witness :
  ButtonController.check Z.sub (fun _ => false) buttons_at_0 (clock_of [900] 900)
  = ((buttons_at_0, []), clock_of [900] 900).
Proof.
  apply (check_without_press Z.sub (fun _ => false) buttons_at_0 (clock_of [900] 900)).
  reflexivity.
Defined.

Lemma check_dispatches_at_most_one_witness :
  (length (ButtonController.check Z.sub (fun _ => true) buttons_at_0
             (fun _ => 900%Z)).1.2 <= 1)%nat.
Proof.
  apply (check_dispatches_at_most_one Z.sub (fun _ => true) buttons_at_0
           (fun _ => 900%Z)).
  intros i j _. vm_compute. discriminate.
Defined.

(** Two buttons held down at the same moment: with all four buttons of
    the main screen down when the clock reads 900 and the last dispatch at
    0, only the call bound to the first button of the mapping goes out. *)
Example check_two_buttons_at_once :
  (ButtonController.check Z.sub (fun _ => true) buttons_at_0 (fun _ => 900%Z)).1.2
  = [ {| Rich.object := Rich.servoD5;
         Rich.method := "min_position_setting_toggle" |} ].
Proof. reflexivity. Qed.

(** * The pin button and its controller *)

(** X14.  [PinButtonController] is a faithful copy of [ButtonController]: over
    a mapping whose keys are pin buttons, [check] dispatches the calls,
    records the time and reads the clock just as [ButtonController.check]
    does over the same mapping keyed by display buttons, when each display
    button is held down exactly when the pin button it stands for is. *)
Theorem pin_controller_is_a_copy (ticks_diff : Z -> Z -> Z) {Target : Type}
    (key : Rich.PinButton.t -> Button) (levels : Rich.PinButton.t -> Z)
    (is_pressed : Button -> bool) (interval : Z)
    (items : list (Rich.PinButton.t * Target)) :
  (forall item, item ∈ items ->
     is_pressed (key item.1) = Rich.PinButton.is_pressed (levels item.1) item.1) ->
  forall (last : Z) (c : Clock),
  Rich.PinButtonController.check_loop ticks_diff levels interval items last c
  = ButtonController.check_loop ticks_diff is_pressed interval
      (map (fun item : Rich.PinButton.t * Target => (key item.1, item.2)) items)
      last c.
Proof.
  induction items as [| [button target] rest IH]; intros Hkey last c;
    [reflexivity |].
  cbn [Rich.PinButtonController.check_loop ButtonController.check_loop map fst snd].
  pose proof (Hkey (button, target) (list_elem_of_here _ _)) as Hb.
  cbn [fst] in Hb. rewrite Hb.
  assert (Hrest : forall item, item ∈ rest ->
            is_pressed (key item.1)
            = Rich.PinButton.is_pressed (levels item.1) item.1).
  { intros item Hin. apply Hkey. apply list_elem_of_further, Hin. }
  destruct (Rich.PinButton.is_pressed (levels button) button).
  - unfold mbind, IO_bind, ticks_ms, mret, IO_ret.
    destruct (decide (ticks_diff (c 0%nat) last > interval)).
    + rewrite (IH Hrest). reflexivity.
    + apply (IH Hrest).
  - apply (IH Hrest).
Qed.

Lemma pin_controller_is_a_copy_witness :
  let button := Rich.PinButton.__init__ 26 true in
  Rich.PinButtonController.check_loop Z.sub (fun _ => 0) 500
    [(button, "increment_state")] 0 (clock_of [600; 601] 601)
  = ButtonController.check_loop Z.sub (fun _ => true) 500
      [(BUTTON_A, "increment_state")] 0 (clock_of [600; 601] 601).
Proof.
  apply (pin_controller_is_a_copy Z.sub (fun _ => BUTTON_A) (fun _ => 0)
           (fun _ => true) 500
           [(Rich.PinButton.__init__ 26 true, "increment_state")]).
  intros item Hin. apply list_elem_of_singleton in Hin. subst item. reflexivity.
Defined.

(** * The rotary encoder *)

Section Rotary.
Variable ticks_diff : Z -> Z -> Z.
Context {Object : Type}.

(** One call of [RotaryController.check].  Within the debounce interval
    it reads the clock once and does nothing else.  Past it, it records the
    second clock reading and the value of the encoder; it calls the
    increment method of every object of the mapping if the value is above
    the one last seen, the decrement method of every object if it is below,
    and nothing if it is the same; and the value last seen becomes the
    value read.  So a call never goes both ways, and a jump of the encoder
    by several counts between two calls is one step. *)
Lemma rotary_check_eq (r_value : Z) (self : RotaryController.t Object) (c : Clock) :
  RotaryController.check ticks_diff r_value self c
  = if decide (ticks_diff (c 0%nat) (RotaryController._time_last_checked self)
               > RotaryController._debounce_interval self)
    then
      (({| RotaryController._mapping := RotaryController._mapping self;
           RotaryController._debounce_interval :=
             RotaryController._debounce_interval self;
           RotaryController._time_last_checked := c 1%nat;
           RotaryController._old_value :=
             if decide (r_value = RotaryController._old_value self)
             then RotaryController._old_value self else r_value;
           RotaryController._new_value := r_value |},
        if decide (r_value > RotaryController._old_value self) then
          map (fun item : Object * RotaryController.Methods =>
                 (item.1, RotaryController.inc_method item.2))
              (RotaryController._mapping self)
        else if decide (r_value < RotaryController._old_value self) then
          map (fun item : Object * RotaryController.Methods =>
                 (item.1, RotaryController.dec_method item.2))
              (RotaryController._mapping self)
        else []),
       fun i => c (S (S i)))
    else ((self, []), fun i => c (S i)).
Proof.
  unfold RotaryController.check, mbind, IO_bind, ticks_ms, mret, IO_ret.
  destruct self as [mapping interval last old new]. cbn.
  destruct (decide (ticks_diff (c 0%nat) last > interval)); [| reflexivity].
  destruct (decide (r_value > old)) as [Hup | Hup].
  - cbn. destruct (decide (r_value < r_value)); [lia |].
    destruct (decide (r_value = old)); [lia |].
    rewrite app_nil_r. reflexivity.
  - cbn. destruct (decide (r_value < old)) as [Hdown | Hdown].
    + cbn. destruct (decide (r_value = old)); [lia |]. reflexivity.
    + cbn. destruct (decide (r_value = old)) as [-> | ?]; [reflexivity | lia].
Qed.

(** X15.  After a call of [RotaryController.check] that is past the
    debounce interval, the value last seen is the value of the encoder,
    whichever way and however far it moved, and at most one call per
    object of the mapping has been dispatched. *)
Theorem rotary_check_tracks_value (r_value : Z)
    (self : RotaryController.t Object) (c : Clock) :
  ticks_diff (c 0%nat) (RotaryController._time_last_checked self)
  > RotaryController._debounce_interval self ->
  let r := RotaryController.check ticks_diff r_value self c in
  RotaryController._old_value r.1.1 = r_value
  /\ RotaryController._new_value r.1.1 = r_value
  /\ (length r.1.2 <= length (RotaryController._mapping self))%nat.
Proof.
  intros Hd. cbv zeta. rewrite rotary_check_eq.
  destruct (decide _) as [_ | Hn]; [| contradiction]. cbn.
  split; [destruct (decide (r_value = _)); congruence |].
  split; [reflexivity |].
  destruct (decide (r_value > _)); [rewrite length_map; lia |].
  destruct (decide (r_value < _)); [rewrite length_map; lia |]. cbn. lia.
Qed.

End Rotary.

Lemma rotary_check_tracks_value_witness :
  let self := {| RotaryController._mapping := Rich.rotary_mapping_main;
                 RotaryController._debounce_interval := 60;
                 RotaryController._time_last_checked := 0;
                 RotaryController._old_value := 0;
                 RotaryController._new_value := 0 |} in
  let r := RotaryController.check Z.sub 7 self (clock_of [100; 101] 101) in
  RotaryController._old_value r.1.1 = 7
  /\ RotaryController._new_value r.1.1 = 7
  /\ (length r.1.2 <= length (RotaryController._mapping self))%nat.
Proof.
  apply (rotary_check_tracks_value Z.sub 7
           {| RotaryController._mapping := Rich.rotary_mapping_main;
              RotaryController._debounce_interval := 60;
              RotaryController._time_last_checked := 0;
              RotaryController._old_value := 0;
              RotaryController._new_value := 0 |}
           (clock_of [100; 101] 101)).
  reflexivity.
Defined.

(** X16.  A turn of the encoder reaches both servos, and moves only the one
    with a field selected: with the mapping of [__main__], a call of
    [check] past the debounce interval that finds the encoder above the
    value last seen calls [increment_value] on both servos; a servo with
    no editing flag set and its bounds in order is left as it was. *)
Theorem rotary_turn_moves_selected_servo_only (ticks_diff : Z -> Z -> Z)
    (r_value : Z) (self : RotaryController.t nat) (c : Clock)
    (d5 d7 : Rich.ServoController.t) :
  RotaryController._mapping self = Rich.rotary_mapping_main ->
  ticks_diff (c 0%nat) (RotaryController._time_last_checked self)
  > RotaryController._debounce_interval self ->
  r_value > RotaryController._old_value self ->
  rich_flags d7 = [false; false; false; false] ->
  Rich.ServoController.min_angle d7 <= Rich.ServoController.max_angle d7 ->
  Rich.dispatch (RotaryController.check ticks_diff r_value self c).1.2 [d5; d7]
  = Some [Rich.ServoController.increment_value d5; d7].
Proof.
  intros Hmap Hd Hup Hf Hord. rewrite rotary_check_eq.
  destruct (decide _) as [_ | Hn]; [| contradiction]. cbn [fst snd].
  destruct (decide (r_value > _)) as [_ | Hn]; [| contradiction].
  rewrite Hmap.
  change (Some [Rich.ServoController.increment_value d5;
                Rich.ServoController.increment_value d7]
          = Some [Rich.ServoController.increment_value d5; d7]).
  destruct (rich_step_idle d7 Hf Hord) as [-> _]. reflexivity.
Qed.

Lemma rotary_turn_moves_selected_servo_only_witness :
  let self := {| RotaryController._mapping := Rich.rotary_mapping_main;
                 RotaryController._debounce_interval := 60;
                 RotaryController._time_last_checked := 0;
                 RotaryController._old_value := 0;
                 RotaryController._new_value := 0 |} in
  let d5 := Rich.ServoController.min_position_setting_toggle rich_servo0 in
  Rich.dispatch (RotaryController.check Z.sub 1 self (clock_of [100; 101] 101)).1.2
    [d5; rich_servo0]
  = Some [Rich.ServoController.increment_value d5; rich_servo0].
Proof.
  apply (rotary_turn_moves_selected_servo_only Z.sub 1
           {| RotaryController._mapping := Rich.rotary_mapping_main;
              RotaryController._debounce_interval := 60;
              RotaryController._time_last_checked := 0;
              RotaryController._old_value := 0;
              RotaryController._new_value := 0 |}
           (clock_of [100; 101] 101)
           (Rich.ServoController.min_position_setting_toggle rich_servo0)
           rich_servo0).
  - reflexivity.
  - reflexivity.
  - reflexivity.
  - reflexivity.
  - vm_compute. discriminate.
Defined.

(** * Further properties of the application controller *)

(** X17.  A press of the mode button moves the application state one step
    round the cycle: from a state within the range of the states it goes
    to the next one, and from the last to state 0; and with two servos or
    more in the object list [increment_state] raises nothing. *)
Theorem increment_state_cycles (app : Rich.ApplicationController.t)
    (store : Rich.Store) :
  0 <= Rich.ApplicationController.application_state app
       < Rich.ApplicationController._num_states app ->
  (2 <= length (Rich.ApplicationController._object_list app))%nat ->
  exists store',
    Rich.ApplicationController.increment_state app store
    = Some (Rich.ApplicationController.set_application_state
              ((Rich.ApplicationController.application_state app + 1)
               mod Rich.ApplicationController._num_states app) app,
            store').
Proof.
  intros Hstate Hlen. destruct app as [state objects n menus]. cbn in *.
  destruct objects as [| o1 [| o2 objects]]; cbn in Hlen; try lia.
  unfold Rich.ApplicationController.increment_state,
    Rich.ApplicationController._handle_state_change,
    Rich.ApplicationController.set_application_state. cbn.
  destruct (decide (state + 1 > n - 1)) as [Hwrap | Hnext]; cbn.
  - replace ((state + 1) mod n) with 0
      by (replace (state + 1) with n by lia; rewrite Z.mod_same; lia).
    eexists. reflexivity.
  - rewrite Z.mod_small by lia.
    destruct (decide (state + 1 = 0)); [lia |].
    destruct (decide (state + 1 = 1)); [eexists; reflexivity |].
    destruct (decide (state + 1 = 2)); eexists; reflexivity.
Qed.

Lemma increment_state_cycles_witness :
  exists store',
    Rich.ApplicationController.increment_state
      (Rich.main_init (clock_of [] 0)).1.1 (Rich.main_init (clock_of [] 0)).1.2
    = Some (Rich.ApplicationController.set_application_state ((0 + 1) mod 3)
              (Rich.main_init (clock_of [] 0)).1.1,
            store').
Proof.
  apply (increment_state_cycles (Rich.main_init (clock_of [] 0)).1.1
           (Rich.main_init (clock_of [] 0)).1.2).
  - vm_compute. split; [discriminate | reflexivity].
  - vm_compute. lia.
Defined.

(** X18.  The application controller indexes its object list at 0 and at 1
    without looking at its length: with fewer than two servos and three
    states, the mode button raises [IndexError] at its second press at the
    latest, whatever the store holds. *)
Theorem mode_button_needs_two_servos (app : Rich.ApplicationController.t)
    (store : Rich.Store) :
  (length (Rich.ApplicationController._object_list app) < 2)%nat ->
  Rich.ApplicationController._num_states app = 3 ->
  Rich.ApplicationController.application_state app = 0 ->
  rich_increment_states 2 app store = None.
Proof.
  intros Hlen Hn Hstate. destruct app as [state objects n menus]. cbn in *.
  subst n state.
  destruct objects as [| o1 [| o2 objects]]; cbn in Hlen; try lia; reflexivity.
Qed.

Lemma mode_button_needs_two_servos_witness :
  rich_increment_states 2
    (Rich.ApplicationController.__init__ [Rich.servoD5] [] 0 3) [rich_servo0]
  = None.
Proof.
  apply (mode_button_needs_two_servos
           (Rich.ApplicationController.__init__ [Rich.servoD5] [] 0 3)
           [rich_servo0]).
  - vm_compute. lia.
  - reflexivity.
  - reflexivity.
Defined.

(** A call made on every object of a list leaves each of them as the
    call leaves an object, when a second call does not undo that. *)
Lemma foldl_call_all (f : Rich.ServoController.t -> Rich.ServoController.t)
    (P : Rich.ServoController.t -> Prop) :
  (forall s, P (f s)) ->
  forall (objects : list nat) (store : Rich.Store) (i : nat)
         (s : Rich.ServoController.t),
  i ∈ objects ->
  foldl (fun store thing => Rich.call f thing store) store objects !! i = Some s ->
  P s.
Proof.
  intros Hf objects. induction objects as [| x objects IH] using rev_ind;
    intros store i s Hin Hs.
  - apply elem_of_nil in Hin. contradiction.
  - rewrite foldl_snoc in Hs. unfold Rich.call in Hs at 1.
    unfold Rich.Store in *.
    destruct (decide (i = x)) as [-> | Hne].
    + rewrite list_lookup_alter_eq in Hs.
      destruct (foldl _ store objects !! x) as [s0 |]; [| discriminate].
      injection Hs as <-. apply Hf.
    + rewrite list_lookup_alter_ne in Hs by congruence.
      apply elem_of_app in Hin as [Hin | Hin].
      * eapply IH; eassumption.
      * apply list_elem_of_singleton in Hin. contradiction.
Qed.

Lemma call_preserves (f : Rich.ServoController.t -> Rich.ServoController.t)
    (P : Rich.ServoController.t -> Prop) (thing : nat) (store : Rich.Store)
    (i : nat) (s : Rich.ServoController.t) :
  (forall s, P s -> P (f s)) ->
  (forall s0, store !! i = Some s0 -> P s0) ->
  Rich.call f thing store !! i = Some s -> P s.
Proof.
  intros Hf Hstore Hs. unfold Rich.call, Rich.Store in *.
  destruct (decide (i = thing)) as [-> | Hne].
  - rewrite list_lookup_alter_eq in Hs.
    destruct (store !! thing) as [s0 |] eqn:H0; [| discriminate].
    injection Hs as <-. apply Hf, Hstore. reflexivity.
  - rewrite list_lookup_alter_ne in Hs by congruence. apply Hstore, Hs.
Qed.

(** X19.  Entering a detail screen stops every servo of the object list, and
    entering the overview sets every one of them running in the small
    display; servos listed twice or missing from the store make no
    difference. *)
Theorem state_change_reaches_every_servo (app : Rich.ApplicationController.t)
    (store store' : Rich.Store) (i : nat) (s : Rich.ServoController.t) :
  Rich.ApplicationController._handle_state_change app store = Some store' ->
  i ∈ Rich.ApplicationController._object_list app ->
  store' !! i = Some s ->
  match Rich.ApplicationController.application_state app with
  | 0 => Rich.ServoController.is_running s = true
         /\ Rich.ServoController.display_mode s = 0
  | 1 | 2 => Rich.ServoController.is_running s = false
  | _ => True
  end.
Proof.
  intros Hh Hin Hs. destruct app as [state objects n menus]. cbn in *.
  unfold Rich.ApplicationController._handle_state_change in Hh. cbn in Hh.
  destruct (decide (state = 0)) as [-> | H0].
  - injection Hh as <-.
    apply (foldl_call_all
             (fun s => Rich.ServoController.run (Rich.ServoController.display_small s))
             (fun s => Rich.ServoController.is_running s = true
                       /\ Rich.ServoController.display_mode s = 0)
             ltac:(intros []; split; reflexivity) objects store i s Hin).
    rewrite <- Hs. f_equal. clear. revert store.
    induction objects as [| x objects IH]; intros store; [reflexivity |].
    cbn. rewrite IH. f_equal. unfold Rich.call, Rich.Store.
    symmetry. apply (list_alter_alter_eq Rich.ServoController.run
                       Rich.ServoController.display_small).
  - destruct (decide (state = 1)) as [-> | H1].
    + destruct (objects !! 0%nat) as [thing |]; [| discriminate].
      cbn in Hh. injection Hh as <-.
      revert Hs.
      apply (call_preserves Rich.ServoController.display_full
               (fun s => Rich.ServoController.is_running s = false));
        [intros [] H; exact H |].
      intros s0 Hs0.
      exact (foldl_call_all Rich.ServoController.stop
               (fun s => Rich.ServoController.is_running s = false)
               ltac:(intros []; reflexivity) objects store i s0 Hin Hs0).
    + destruct (decide (state = 2)) as [-> | H2].
      * destruct (objects !! 1%nat) as [thing |]; [| discriminate].
        cbn in Hh. injection Hh as <-.
        revert Hs.
        apply (call_preserves Rich.ServoController.display_full
                 (fun s => Rich.ServoController.is_running s = false));
          [intros [] H; exact H |].
        intros s0 Hs0.
        exact (foldl_call_all Rich.ServoController.stop
               (fun s => Rich.ServoController.is_running s = false)
                 ltac:(intros []; reflexivity) objects store i s0 Hin Hs0).
      * destruct state as [| [p | [p | p |] |] | p]; try exact I; congruence.
Qed.

Lemma state_change_reaches_every_servo_witness :
  Rich.ServoController.is_running
    (Rich.ServoController.stop (Rich.ServoController.run rich_servo0)) = false.
Proof.
  apply (state_change_reaches_every_servo
           (Rich.ApplicationController.__init__ [0%nat; 1%nat] [] 2 3)
           [Rich.ServoController.run rich_servo0; Rich.ServoController.run rich_servo0]
           [Rich.ServoController.stop (Rich.ServoController.run rich_servo0);
            Rich.ServoController.display_full
              (Rich.ServoController.stop (Rich.ServoController.run rich_servo0))]
           0%nat).
  - reflexivity.
  - apply list_elem_of_here.
  - reflexivity.
Defined.

(** * Drawing a character *)

(** The steps of the two loops: rows 0..7, columns 0..4. *)
Lemma draw_char_steps_range :
  Forall (fun step : nat * nat => (step.1 < 8)%nat /\ (step.2 < 5)%nat)
         draw_char_steps.
Proof. repeat constructor. Qed.

(** Bit [ii + 3] of [bits] for [ii < 5] is one of the five low bits. *)
Lemma bits_low (ii : nat) :
  (ii < 5)%nat ->
  exists bit, bits !! (ii + 3)%nat = Some bit /\ Z.land 31 bit = bit.
Proof.
  intros H. do 5 (destruct ii as [| ii]; [eexists; split; reflexivity |]). lia.
Qed.

Lemma draw_char_loop_completes (xpos ypos : Z) (pattern : list Z)
    (steps : list (nat * nat)) :
  Forall (fun step : nat * nat => (step.1 < 8)%nat /\ (step.2 < 5)%nat) steps ->
  (draw_char_loop xpos ypos pattern steps).2
  = forallb (fun step : nat * nat => step.1 <? length pattern)%nat steps.
Proof.
  induction steps as [| [line ii] steps IH]; intros Hr; [reflexivity |].
  apply Forall_cons in Hr as [[_ Hii] Hr]. cbn [fst snd] in Hii.
  cbn [draw_char_loop forallb fst].
  destruct (bits_low ii Hii) as (bit & -> & _).
  destruct (pattern !! line) as [row |] eqn:Hrow.
  - apply lookup_lt_Some in Hrow.
    rewrite (proj2 (Nat.ltb_lt _ _) Hrow). cbn [andb].
    destruct (decide (Z.land row bit = 0)); cbn [snd]; apply IH, Hr.
  - apply lookup_ge_None in Hrow.
    rewrite (proj2 (Nat.ltb_ge _ _) Hrow). reflexivity.
Qed.

(** X20.  [draw_char] runs to its end exactly when the pattern has eight rows
    or more (rows after the eighth are not looked at); with a shorter
    pattern it raises [IndexError], after drawing the rows there are. *)
Theorem draw_char_needs_eight_rows (xpos ypos : Z) (pattern : list Z) :
  (draw_char xpos ypos pattern).2 = bool_decide (8 <= length pattern)%nat.
Proof.
  unfold draw_char.
  rewrite draw_char_loop_completes by apply draw_char_steps_range.
  do 8 (destruct pattern as [| ? pattern]; [reflexivity |]).
  cbn [length]. rewrite bool_decide_eq_true_2 by lia. reflexivity.
Qed.

Lemma draw_char_loop_box (xpos ypos : Z) (pattern : list Z)
    (steps : list (nat * nat)) :
  Forall (fun step : nat * nat => (step.1 < 8)%nat /\ (step.2 < 5)%nat) steps ->
  Forall (fun pixel : Z * Z =>
            xpos + 6 <= pixel.1 <= xpos + 15 /\ ypos <= pixel.2 <= ypos + 15)
         (draw_char_loop xpos ypos pattern steps).1.
Proof.
  induction steps as [| [line ii] steps IH]; intros Hr; [constructor |].
  apply Forall_cons in Hr as [[Hline Hii] Hr]. cbn [fst snd] in Hline, Hii.
  cbn [draw_char_loop].
  destruct (pattern !! line) as [row |]; [| constructor].
  destruct (bits !! (ii + 3)%nat) as [bit |]; [| constructor].
  destruct (decide (Z.land row bit = 0)); [apply IH, Hr |].
  cbn [fst]. apply Forall_app. split; [| apply IH, Hr].
  unfold draw_char_dot. repeat constructor; cbn [fst snd]; lia.
Qed.

(** X21.  Every pixel [draw_char] sets lies in the box of 10 by 16 pixels
    whose corner is 6 pixels to the right of [(xpos, ypos)]: the marker
    never spills outside it, whatever the pattern. *)
Theorem draw_char_stays_in_box (xpos ypos : Z) (pattern : list Z) :
  Forall (fun pixel : Z * Z =>
            xpos + 6 <= pixel.1 <= xpos + 15 /\ ypos <= pixel.2 <= ypos + 15)
         (draw_char xpos ypos pattern).1.
Proof. apply draw_char_loop_box, draw_char_steps_range. Qed.

Lemma draw_char_loop_low_bits (xpos ypos : Z) (pattern : list Z)
    (steps : list (nat * nat)) :
  Forall (fun step : nat * nat => (step.1 < 8)%nat /\ (step.2 < 5)%nat) steps ->
  draw_char_loop xpos ypos (map (fun row => Z.land row 31) pattern) steps
  = draw_char_loop xpos ypos pattern steps.
Proof.
  induction steps as [| [line ii] steps IH]; intros Hr; [reflexivity |].
  apply Forall_cons in Hr as [[_ Hii] Hr]. cbn [fst snd] in Hii.
  cbn [draw_char_loop]. rewrite list_lookup_fmap.
  destruct (pattern !! line) as [row |]; [| reflexivity].
  cbn [fmap option_fmap option_map].
  destruct (bits_low ii Hii) as (bit & -> & Hbit).
  rewrite <- Z.land_assoc, Hbit, (IH Hr). reflexivity.
Qed.

(** X22.  Only the five low bits of each row of the pattern are drawn: masking
    every row with 31 changes nothing. *)
Theorem draw_char_uses_low_five_bits (xpos ypos : Z) (pattern : list Z) :
  draw_char xpos ypos (map (fun row => Z.land row 31) pattern)
  = draw_char xpos ypos pattern.
Proof. apply draw_char_loop_low_bits, draw_char_steps_range. Qed.

(** The up arrow is 9 dots, each of four pixels. *)
Example draw_char_up_arrow :
  length (draw_char 0 0 up_arrow).1 = 36%nat
  /\ (draw_char 0 0 up_arrow).2 = true.
Proof. split; reflexivity. Qed.

(** * Padding and the application mode *)

Lemma length_string_of_list_ascii (l : list Ascii.ascii) :
  String.length (String.string_of_list_ascii l) = length l.
Proof. induction l as [| a l IH]; [reflexivity |]. cbn. f_equal. exact IH. Qed.

Lemma length_string_app (s1 s2 : string) :
  String.length (s1 +:+ s2) = (String.length s1 + String.length s2)%nat.
Proof.
  induction s1 as [| a s1 IH]; [reflexivity |].
  change (String a s1 +:+ s2) with (String a (s1 +:+ s2)).
  cbn [String.length]. rewrite IH. reflexivity.
Qed.

(** X23.  [zfl] pads on the left and never cuts: the result is as long as the
    wider of the string and the field, it is the string with
    [width - len(s)] pad characters before it, and the simplified variant
    is the richer one with the pad character 0. *)
Theorem zfl_pads_on_the_left (s : string) (width : nat) (padchar : Ascii.ascii) :
  String.length (Rich.zfl s width padchar) = Nat.max width (String.length s)
  /\ (exists pad, Rich.zfl s width padchar = pad +:+ s
                  /\ String.list_ascii_of_string pad
                     = replicate (width - String.length s) padchar)
  /\ Simple.zfl s width = Rich.zfl s width "0"%char.
Proof.
  unfold Rich.zfl, Simple.zfl. split; [| split].
  - rewrite length_string_app, length_string_of_list_ascii, length_replicate. lia.
  - eexists. split; [reflexivity |].
    apply String.list_ascii_of_string_of_list_ascii.
  - reflexivity.
Qed.

(** X24.  A string that fills the field comes back from [zfl] unchanged. *)
Theorem zfl_of_a_wide_string (s : string) (width : nat) (padchar : Ascii.ascii) :
  (width <= String.length s)%nat ->
  Rich.zfl s width padchar = s /\ Simple.zfl s width = s.
Proof.
  intros Hw. unfold Rich.zfl, Simple.zfl.
  replace (width - String.length s)%nat with 0%nat by lia.
  split; reflexivity.
Qed.

(** The simplified variant pads the upper bound after the label is
    appended ([zfl(str(self.max_angle) + " MAX", 3)]), so that label is
    never padded; the lower bound is padded before its label is appended. *)
Lemma zfl_of_a_wide_string_witness :
  Rich.zfl "5 MAX" 3 "0"%char = "5 MAX" /\ Simple.zfl "5 MAX" 3 = "5 MAX".
Proof. apply (zfl_of_a_wide_string "5 MAX" 3 "0"%char). vm_compute. lia. Defined.

Example zfl_labels_of_the_simplified_variant :
  Simple.zfl ("5" +:+ " MAX") 3 = "5 MAX"
  /\ Simple.zfl "5" 3 +:+ " MIN" = "005 MIN".
Proof. split; reflexivity. Qed.

(** X25.  [increment_application_mode] switches between the two display modes:
    from mode 0 it gives 1 and from mode 1 it gives 0, so two calls give
    the mode back. *)
Theorem increment_application_mode_alternates (display_mode : Z) :
  0 <= display_mode <= 1 ->
  Rich.increment_application_mode display_mode = 1 - display_mode
  /\ Rich.increment_application_mode
       (Rich.increment_application_mode display_mode) = display_mode.
Proof.
  unfold Rich.increment_application_mode. intros H.
  destruct (decide (display_mode + 1 > 1));
    [destruct (decide (0 + 1 > 1)) | destruct (decide (display_mode + 1 + 1 > 1))];
    lia.
Qed.

Lemma increment_application_mode_alternates_witness :
  Rich.increment_application_mode 1 = 1 - 1
  /\ Rich.increment_application_mode (Rich.increment_application_mode 1) = 1.
Proof. apply (increment_application_mode_alternates 1). lia. Defined.
